(** * Loops feed client: formatting utilities, video player item, feed screens

    A shallow embedding of the interaction logic of the short-video feed
    client and of its formatting helpers.

    - [Utils]       : [prettyCount] and [timeAgo] (the formatting helpers).
    - [VideoPlayer] : the per-item player component, as a state machine
                      over its hook state, refs, engine handle and the
                      pending timers of the JS runtime.
    - [LoopsFeed], [ProfileFeed] : the two feed screens, as far as they own
                      the active-item pointer, the scroll position and the
                      requests handed to the query layer.

    JavaScript numbers are idealised as exact rationals ([Q]) or integers
    ([Z]); timestamps are integer milliseconds since the epoch. *)

From Stdlib Require Import ZArith QArith Qround Qabs String Ascii List Bool Lia Lqa DecimalString.
Import ListNotations.

Local Open Scope Z_scope.

(* ================================================================== *)
(** ** Formatting utilities *)
(* ================================================================== *)

Module Utils.

Local Open Scope string_scope.

(** A JS [number]: not-a-number, an infinity, or a finite value. *)
Inductive number : Type :=
| NaN
| Infinity (negative : bool)
| Num (q : Q).




Definition Math_floor (x : Q) : Z := Qfloor x.




(** Decimal digits of a non-negative integer. *)
Definition itoa (z : Z) : string := NilZero.string_of_uint (N.to_uint (Z.to_N z)).

Fixpoint repeat_zero (n : nat) : string :=
  match n with
  | O => ""
  | S k => String "0" (repeat_zero k)
  end.

(** [s.padStart(width, '0')] *)
Definition padStart0 (width : nat) (s : string) : string :=
  repeat_zero (width - String.length s) ++ s.










(** *** Calendar fields of a timestamp *)

(** Days since the epoch to (year, month 0..11, day of month), in the
    proleptic Gregorian calendar. *)
Definition civil_from_days (days : Z) : Z * Z * Z :=
  let z := days + 719468 in
  let era := z / 146097 in
  let doe := z - era * 146097 in
  let yoe := (doe - doe / 1460 + doe / 36524 - doe / 146096) / 365 in
  let y := yoe + era * 400 in
  let doy := doe - (365 * yoe + yoe / 4 - yoe / 100) in
  let mp := (5 * doy + 2) / 153 in
  let d := doy - (153 * mp + 2) / 5 + 1 in
  let m := if (mp <? 10)%Z then mp + 3 else mp - 9 in
  (if (m <=? 2)%Z then y + 1 else y, m - 1, d).

(** A [Date]: milliseconds since the epoch.  [tz] is the offset of local
    time from UTC in minutes, taken as fixed. *)
Definition local_days (tz : Z) (ms : Z) : Z := (ms + tz * 60000) / 86400000.

Definition getFullYear (tz ms : Z) : Z := fst (fst (civil_from_days (local_days tz ms))).
Definition getMonth (tz ms : Z) : Z := snd (fst (civil_from_days (local_days tz ms))).
Definition getDate (tz ms : Z) : Z := snd (civil_from_days (local_days tz ms)).

Definition months : list string :=
  ["Jan"; "Feb"; "Mar"; "Apr"; "May"; "Jun";
   "Jul"; "Aug"; "Sep"; "Oct"; "Nov"; "Dec"].

(** [now ? new Date(now) : new Date()]: an absent or falsy [now] reads the
    clock. *)
Definition reference_time (clock : Z) (now : option Z) : Z :=
  match now with
  | Some n => if (n =? 0)%Z then clock else n
  | None => clock
  end.

(** [Math.max(0, Math.floor(diffMs / 1000))] *)
Definition elapsed_seconds (input ref : Z) : Z := Z.max 0 ((ref - input) / 1000).

(** [timeAgo(input, now)]; [clock] is what [new Date()] would read and
    [tz] the local zone offset. *)
Definition timeAgo (tz clock : Z) (input : Z) (now : option Z) : string :=
  let d := input in
  let ref := reference_time clock now in
  let s := elapsed_seconds d ref in
  let h := s / 3600 in
  if (h <? 24)%Z then
    if (s <? 5)%Z then "now"
    else if (s <? 60)%Z then itoa s ++ "s"
    else
      let m := s / 60 in
      if (m <? 60)%Z then itoa m ++ "m" else itoa h ++ "h"
  else
    let month := nth (Z.to_nat (getMonth tz d)) months "undefined" in
    let day := getDate tz d in
    let year := getFullYear tz d in
    let currentYear := getFullYear tz ref in
    if (year =? currentYear)%Z
    then month ++ " " ++ itoa day
    else month ++ " " ++ itoa day ++ ", " ++ itoa year.

(** *** [truncate] *)

(** A string is read as its sequence of Unicode code points, which is what
    [Array.from(str)] yields. *)
Definition CodePoint : Type := N.

(** The [text] argument at run time: a string, or anything else. *)
Inductive value : Type :=
| Str (cp : list CodePoint)
| NotString.

(** The default suffix, the one-character ellipsis. *)
Definition ellipsis : list CodePoint := [8230%N].

(** [suffix ? suffix : ''] *)
Definition suffix_or_empty (suffix : list CodePoint) : list CodePoint :=
  match suffix with
  | [] => []
  | _ :: _ => suffix
  end.

(** [truncate(text, limit, opts)]; [opts_suffix] is [opts?.suffix]. *)
Definition truncate (text : value) (limit : number) (opts_suffix : option (list CodePoint))
    : list CodePoint :=
  let suffix := match opts_suffix with Some x => x | None => ellipsis end in
  match text with
  | NotString => []
  | Str t =>
      match limit with
      | NaN | Infinity _ => suffix_or_empty suffix
      | Num l =>
          if Qle_bool l 0 then suffix_or_empty suffix
          else
            let cp := t in
            if Qle_bool (inject_Z (Z.of_nat (List.length cp))) l then t
            else
              (* [slice(0, limit)] drops the fraction of a positive [limit] *)
              let trimmed := firstn (Z.to_nat (Qfloor l)) cp in
              match suffix with
              | [] => trimmed
              | _ :: _ => trimmed ++ suffix
              end
      end
  end.

(** *** [strPadLeft], [convertSecondsToTimeString] *)

(** [value.toString()] of an integer. *)
Definition toString (z : Z) : string :=
  if (z <? 0)%Z then "-" ++ itoa (- z) else itoa z.

(** [value.toString().padStart(2, '0')], for an integer [value]. *)
Definition strPadLeft (v : Z) : string := padStart0 2 (toString v).

(** The two numbers [convertSecondsToTimeString] prints. *)
Definition minutes_of (totalSeconds : Q) : Z := Math_floor (totalSeconds / 60)%Q.

Definition seconds_of (totalSeconds : Q) : Z :=
  Math_floor (totalSeconds - inject_Z (minutes_of totalSeconds) * 60)%Q.

Definition convertSecondsToTimeString (totalSeconds : Q) : string :=
  let minutes := minutes_of totalSeconds in
  let seconds := seconds_of totalSeconds in
  strPadLeft minutes ++ ":" ++ strPadLeft seconds.

(** The decimal digit [k] as a character. *)
Definition digit (k : Z) : ascii := ascii_of_nat (48 + Z.to_nat k).

(** A number from 0 to 99 written with two digits. *)
Definition two_digits (v : Z) : string :=
  String (digit (v / 10)) (String (digit (v mod 10)) EmptyString).

(** *** Day boundaries *)

(** (year, month 1..12, day of month) to days since the epoch. *)
Definition days_from_civil (y m d : Z) : Z :=
  let y' := if (m <=? 2)%Z then y - 1 else y in
  let era := y' / 400 in
  let yoe := y' - era * 400 in
  let mp := if (2 <? m)%Z then m - 3 else m + 9 in
  let doy := (153 * mp + 2) / 5 + d - 1 in
  let doe := yoe * 365 + yoe / 4 - yoe / 100 + doy in
  era * 146097 + doe - 719468.

(** [new Date(year, monthIndex, day, hours, minutes, seconds, ms)], read in
    local time, for a month index in 0..11 and a day of that month; a year
    from 0 to 99 stands for 1900 + year. *)
Definition Date_local (tz year monthIndex day hours minutes seconds ms : Z) : Z :=
  let y := if (0 <=? year)%Z && (year <=? 99)%Z then 1900 + year else year in
  days_from_civil y (monthIndex + 1) day * 86400000
  + hours * 3600000 + minutes * 60000 + seconds * 1000 + ms
  - tz * 60000.

Definition isSameDay (tz a b : Z) : bool :=
  (getFullYear tz a =? getFullYear tz b)%Z &&
  (getMonth tz a =? getMonth tz b)%Z &&
  (getDate tz a =? getDate tz b)%Z.

Definition startOfDay (tz input : Z) : Z :=
  Date_local tz (getFullYear tz input) (getMonth tz input) (getDate tz input) 0 0 0 0.

Definition endOfDay (tz input : Z) : Z :=
  Date_local tz (getFullYear tz input) (getMonth tz input) (getDate tz input) 23 59 59 999.

(** [`${y}-${m}-${day}`] with month and day padded to two digits. *)
Definition toISODate (tz input : Z) : string :=
  let y := getFullYear tz input in
  let m := padStart0 2 (toString (getMonth tz input + 1)) in
  let day := padStart0 2 (toString (getDate tz input)) in
  toString y ++ "-" ++ m ++ "-" ++ day.

(** The year is one that [new Date(year, ...)] takes as it is. *)
Definition plain_year (tz input : Z) : Prop :=
  getFullYear tz input < 0 \/ 99 < getFullYear tz input.

(** *** Notions used to state what [prettyCount] prints *)




End Utils.

(* ================================================================== *)
(** ** The video player item *)
(* ================================================================== *)

Module VideoPlayer.

(** The fields of a feed item the player reads. *)
Record Item : Type := mkItem {
  id : Z;
  is_sensitive : bool;
  likes : Z;
  has_liked : bool;
  bookmarks : Z;
  has_bookmarked : bool
}.

(** A function-valued prop is represented by the name of the parent's
    function it is bound to. *)
Inductive Callback : Type := setTimelineIsControlled.

(** The props object handed to the component.  Callbacks every caller
    supplies ([onLike], [onBookmark]) are not listed; a callback prop that is
    absent from the object reads as [undefined], here [None].  The component
    destructures [onTimelineControlled]; [onTimelineControlledChanged] is a
    key callers may put in the object and the component never reads. *)
Record Props : Type := mkProps {
  isActive : bool;
  commentsOpen : bool;
  shareOpen : bool;
  otherOpen : bool;
  screenFocused : bool;
  onTimelineControlled : option Callback;
  onTimelineControlledChanged : option Callback
}.

(** The handle of the video engine. *)
Record Player : Type := mkPlayer {
  playing : bool;
  currentTime : Q;
  duration : Q
}.

(** Calls made on the parent's callbacks. *)
Inductive Call : Type :=
| onLike (item_id : Z) (liked : bool)
| onBookmark (item_id : Z) (bookmarked : bool)
| invoke (f : Callback) (arg : bool).

Inductive Error : Type :=
| TypeError_not_a_function (name : string).

(** The values the dependency arrays of the two effects compare between
    renders ([player] and [item.is_sensitive] do not change during the life
    of a component instance). *)
Record Deps : Type := mkDeps {
  dep_isActive : bool;
  dep_commentsOpen : bool;
  dep_shareOpen : bool;
  dep_otherOpen : bool;
  dep_screenFocused : bool;
  dep_playSensitive : bool
}.

Definition deps_eqb (a b : Deps) : bool :=
  Bool.eqb (dep_isActive a) (dep_isActive b) &&
  Bool.eqb (dep_commentsOpen a) (dep_commentsOpen b) &&
  Bool.eqb (dep_shareOpen a) (dep_shareOpen b) &&
  Bool.eqb (dep_otherOpen a) (dep_otherOpen b) &&
  Bool.eqb (dep_screenFocused a) (dep_screenFocused b) &&
  Bool.eqb (dep_playSensitive a) (dep_playSensitive b).

(** One mounted component instance: hook state, refs, the engine handle,
    the current props, what the last commit saw, and the part of the JS
    runtime the component touches (pending timers, calls made on the parent,
    uncaught exceptions). *)
Record State : Type := mkState {
  (* useState *)
  isLiked : bool;
  isBookmarked : bool;
  showControls : bool;
  showDurationControl : bool;
  isPlaying : bool;
  playSensitive : bool;
  elapsedTimeProgression : Q;
  (* useRef *)
  manualControlRef : bool;
  isMountedRef : bool;
  wasActiveRef : bool;
  controlsTimeoutRef : option positive;
  (* useVideoPlayer *)
  player : Player;
  (* props of the current render, dependencies of the last commit *)
  props : Props;
  lastDeps : Deps;
  (* runtime *)
  timers : list positive;
  nextTimerId : positive;
  calls : list Call;
  thrown : list Error
}.

(** Field updates. *)
Definition set_isLiked (b : bool) (s : State) : State :=
  mkState b (isBookmarked s) (showControls s) (showDurationControl s) (isPlaying s)
    (playSensitive s) (elapsedTimeProgression s) (manualControlRef s) (isMountedRef s)
    (wasActiveRef s) (controlsTimeoutRef s) (player s) (props s) (lastDeps s)
    (timers s) (nextTimerId s) (calls s) (thrown s).

Definition set_isBookmarked (b : bool) (s : State) : State :=
  mkState (isLiked s) b (showControls s) (showDurationControl s) (isPlaying s)
    (playSensitive s) (elapsedTimeProgression s) (manualControlRef s) (isMountedRef s)
    (wasActiveRef s) (controlsTimeoutRef s) (player s) (props s) (lastDeps s)
    (timers s) (nextTimerId s) (calls s) (thrown s).

Definition setShowControls (b : bool) (s : State) : State :=
  mkState (isLiked s) (isBookmarked s) b (showDurationControl s) (isPlaying s)
    (playSensitive s) (elapsedTimeProgression s) (manualControlRef s) (isMountedRef s)
    (wasActiveRef s) (controlsTimeoutRef s) (player s) (props s) (lastDeps s)
    (timers s) (nextTimerId s) (calls s) (thrown s).

Definition setShowDurationControl (b : bool) (s : State) : State :=
  mkState (isLiked s) (isBookmarked s) (showControls s) b (isPlaying s)
    (playSensitive s) (elapsedTimeProgression s) (manualControlRef s) (isMountedRef s)
    (wasActiveRef s) (controlsTimeoutRef s) (player s) (props s) (lastDeps s)
    (timers s) (nextTimerId s) (calls s) (thrown s).

Definition setIsPlaying (b : bool) (s : State) : State :=
  mkState (isLiked s) (isBookmarked s) (showControls s) (showDurationControl s) b
    (playSensitive s) (elapsedTimeProgression s) (manualControlRef s) (isMountedRef s)
    (wasActiveRef s) (controlsTimeoutRef s) (player s) (props s) (lastDeps s)
    (timers s) (nextTimerId s) (calls s) (thrown s).

Definition setPlaySensitive (b : bool) (s : State) : State :=
  mkState (isLiked s) (isBookmarked s) (showControls s) (showDurationControl s) (isPlaying s)
    b (elapsedTimeProgression s) (manualControlRef s) (isMountedRef s)
    (wasActiveRef s) (controlsTimeoutRef s) (player s) (props s) (lastDeps s)
    (timers s) (nextTimerId s) (calls s) (thrown s).

Definition setElapsedTimeProgression (q : Q) (s : State) : State :=
  mkState (isLiked s) (isBookmarked s) (showControls s) (showDurationControl s) (isPlaying s)
    (playSensitive s) q (manualControlRef s) (isMountedRef s)
    (wasActiveRef s) (controlsTimeoutRef s) (player s) (props s) (lastDeps s)
    (timers s) (nextTimerId s) (calls s) (thrown s).

Definition set_manualControlRef (b : bool) (s : State) : State :=
  mkState (isLiked s) (isBookmarked s) (showControls s) (showDurationControl s) (isPlaying s)
    (playSensitive s) (elapsedTimeProgression s) b (isMountedRef s)
    (wasActiveRef s) (controlsTimeoutRef s) (player s) (props s) (lastDeps s)
    (timers s) (nextTimerId s) (calls s) (thrown s).

Definition set_wasActiveRef (b : bool) (s : State) : State :=
  mkState (isLiked s) (isBookmarked s) (showControls s) (showDurationControl s) (isPlaying s)
    (playSensitive s) (elapsedTimeProgression s) (manualControlRef s) (isMountedRef s)
    b (controlsTimeoutRef s) (player s) (props s) (lastDeps s)
    (timers s) (nextTimerId s) (calls s) (thrown s).

Definition set_controlsTimeoutRef (t : option positive) (s : State) : State :=
  mkState (isLiked s) (isBookmarked s) (showControls s) (showDurationControl s) (isPlaying s)
    (playSensitive s) (elapsedTimeProgression s) (manualControlRef s) (isMountedRef s)
    (wasActiveRef s) t (player s) (props s) (lastDeps s)
    (timers s) (nextTimerId s) (calls s) (thrown s).

Definition set_player (p : Player) (s : State) : State :=
  mkState (isLiked s) (isBookmarked s) (showControls s) (showDurationControl s) (isPlaying s)
    (playSensitive s) (elapsedTimeProgression s) (manualControlRef s) (isMountedRef s)
    (wasActiveRef s) (controlsTimeoutRef s) p (props s) (lastDeps s)
    (timers s) (nextTimerId s) (calls s) (thrown s).

Definition set_props (p : Props) (s : State) : State :=
  mkState (isLiked s) (isBookmarked s) (showControls s) (showDurationControl s) (isPlaying s)
    (playSensitive s) (elapsedTimeProgression s) (manualControlRef s) (isMountedRef s)
    (wasActiveRef s) (controlsTimeoutRef s) (player s) p (lastDeps s)
    (timers s) (nextTimerId s) (calls s) (thrown s).

Definition set_lastDeps (d : Deps) (s : State) : State :=
  mkState (isLiked s) (isBookmarked s) (showControls s) (showDurationControl s) (isPlaying s)
    (playSensitive s) (elapsedTimeProgression s) (manualControlRef s) (isMountedRef s)
    (wasActiveRef s) (controlsTimeoutRef s) (player s) (props s) d
    (timers s) (nextTimerId s) (calls s) (thrown s).

Definition set_timers (ts : list positive) (s : State) : State :=
  mkState (isLiked s) (isBookmarked s) (showControls s) (showDurationControl s) (isPlaying s)
    (playSensitive s) (elapsedTimeProgression s) (manualControlRef s) (isMountedRef s)
    (wasActiveRef s) (controlsTimeoutRef s) (player s) (props s) (lastDeps s)
    ts (nextTimerId s) (calls s) (thrown s).

Definition set_nextTimerId (n : positive) (s : State) : State :=
  mkState (isLiked s) (isBookmarked s) (showControls s) (showDurationControl s) (isPlaying s)
    (playSensitive s) (elapsedTimeProgression s) (manualControlRef s) (isMountedRef s)
    (wasActiveRef s) (controlsTimeoutRef s) (player s) (props s) (lastDeps s)
    (timers s) n (calls s) (thrown s).

Definition add_call (c : Call) (s : State) : State :=
  mkState (isLiked s) (isBookmarked s) (showControls s) (showDurationControl s) (isPlaying s)
    (playSensitive s) (elapsedTimeProgression s) (manualControlRef s) (isMountedRef s)
    (wasActiveRef s) (controlsTimeoutRef s) (player s) (props s) (lastDeps s)
    (timers s) (nextTimerId s) (c :: calls s) (thrown s).

Definition throw (e : Error) (s : State) : State :=
  mkState (isLiked s) (isBookmarked s) (showControls s) (showDurationControl s) (isPlaying s)
    (playSensitive s) (elapsedTimeProgression s) (manualControlRef s) (isMountedRef s)
    (wasActiveRef s) (controlsTimeoutRef s) (player s) (props s) (lastDeps s)
    (timers s) (nextTimerId s) (calls s) (e :: thrown s).

(** Updates of single props, as a re-render by the parent delivers them. *)
Definition with_isActive (b : bool) (p : Props) : Props :=
  mkProps b (commentsOpen p) (shareOpen p) (otherOpen p) (screenFocused p)
    (onTimelineControlled p) (onTimelineControlledChanged p).
Definition with_commentsOpen (b : bool) (p : Props) : Props :=
  mkProps (isActive p) b (shareOpen p) (otherOpen p) (screenFocused p)
    (onTimelineControlled p) (onTimelineControlledChanged p).
Definition with_shareOpen (b : bool) (p : Props) : Props :=
  mkProps (isActive p) (commentsOpen p) b (otherOpen p) (screenFocused p)
    (onTimelineControlled p) (onTimelineControlledChanged p).
Definition with_otherOpen (b : bool) (p : Props) : Props :=
  mkProps (isActive p) (commentsOpen p) (shareOpen p) b (screenFocused p)
    (onTimelineControlled p) (onTimelineControlledChanged p).
Definition with_screenFocused (b : bool) (p : Props) : Props :=
  mkProps (isActive p) (commentsOpen p) (shareOpen p) (otherOpen p) b
    (onTimelineControlled p) (onTimelineControlledChanged p).

(** The engine operations the component uses. *)
Definition player_play (s : State) : State :=
  set_player (mkPlayer true (currentTime (player s)) (duration (player s))) s.
Definition player_pause (s : State) : State :=
  set_player (mkPlayer false (currentTime (player s)) (duration (player s))) s.
Definition player_seek (t : Q) (s : State) : State :=
  set_player (mkPlayer (playing (player s)) t (duration (player s))) s.

(** [setTimeout]: registers a pending timer and returns its id (ids are
    positive, hence truthy); [clearTimeout] drops a pending timer and does
    nothing for an id that is not pending. *)
Definition setTimeout (s : State) : positive * State :=
  let t := nextTimerId s in
  (t, set_nextTimerId (Pos.succ t) (set_timers (t :: timers s) s)).

Definition clearTimeout (t : positive) (s : State) : State :=
  set_timers (filter (fun u => negb (Pos.eqb u t)) (timers s)) s.

Section Component.

(** The [item] prop, the duration of its media and the window width read
    once when the module is loaded. *)
Variable item : Item.
Variable media_duration : Q.
Variable SCREEN_WIDTH : Q.

Definition deps_of (s : State) : Deps :=
  mkDeps (isActive (props s)) (commentsOpen (props s)) (shareOpen (props s))
    (otherOpen (props s)) (screenFocused (props s)) (playSensitive s).

(** [isActive && screenFocused && !(item.is_sensitive && !playSensitive)] *)
Definition shouldPlay (s : State) : bool :=
  isActive (props s) && screenFocused (props s) &&
  negb (is_sensitive item && negb (playSensitive s)).

(** The automatic play/pause effect (dependencies: [isActive],
    [commentsOpen], [shareOpen], [otherOpen], [screenFocused], [player],
    [item.is_sensitive], [playSensitive]).  The engine calls are taken not to
    throw, so the [catch] branch is not modelled. *)
Definition autoPlayEffect (s : State) : State :=
  if manualControlRef s then s
  else
    let s1 := if isActive (props s) && negb (wasActiveRef s)
              then player_seek 0 s else s in
    let s2 := if shouldPlay s && isMountedRef s1
              then setIsPlaying true (player_play s1)
              else if isMountedRef s1
                   then setIsPlaying false (player_pause s1)
                   else s1 in
    set_wasActiveRef (isActive (props s)) s2.

(** The reset effect (dependency: [isActive]). *)
Definition resetEffect (s : State) : State :=
  if negb (isActive (props s))
  then setPlaySensitive false (set_manualControlRef false s)
  else s.

(** One render followed by its commit: each effect runs when one of its
    dependencies differs from what the previous commit saw, in the order
    the effects are declared. *)
Definition commit (s : State) : State :=
  let d := deps_of s in
  let s1 := if deps_eqb d (lastDeps s) then s else autoPlayEffect s in
  let s2 := if Bool.eqb (dep_isActive d) (dep_isActive (lastDeps s))
            then s1 else resetEffect s1 in
  set_lastDeps d s2.

(** A state set inside an effect schedules another render; renders repeat
    until a commit leaves the dependencies as it saw them. *)
Fixpoint settle (fuel : nat) (s : State) : State :=
  match fuel with
  | O => s
  | S f => if deps_eqb (deps_of s) (lastDeps s) then s else settle f (commit s)
  end.

Definition stable (s : State) : Prop := deps_eqb (deps_of s) (lastDeps s) = true.

(** Two renders are always enough (see [flush_stable]). *)
Definition flush (s : State) : State := settle 2 s.

(** The state built by the first render. *)
Definition initial (p : Props) : State :=
  mkState (has_liked item) (has_bookmarked item) false false false false 0
    false true false None
    (mkPlayer false 0 media_duration)
    p (mkDeps (isActive p) (commentsOpen p) (shareOpen p) (otherOpen p)
         (screenFocused p) false)
    [] 1%positive [] [].

(** Mounting runs every effect once. *)
Definition mount (p : Props) : State :=
  flush (resetEffect (autoPlayEffect (initial p))).

(** *** Event handlers *)

Definition handleLike (s : State) : State :=
  add_call (onLike (id item) (negb (isLiked s))) (set_isLiked (negb (isLiked s)) s).

Definition handleBookmark (s : State) : State :=
  add_call (onBookmark (id item) (negb (isBookmarked s)))
    (set_isBookmarked (negb (isBookmarked s)) s).

Definition togglePlayPause (s : State) : State :=
  if negb (isMountedRef s) then s
  else
    let s1 := set_manualControlRef true s in
    if isPlaying s
    then setIsPlaying false (player_pause s1)
    else setIsPlaying true (player_play s1).

(** The callback handed to [setTimeout] by [handleScreenPress]. *)
Definition controlsTimeout (s : State) : State :=
  if isMountedRef s
  then set_manualControlRef false (setShowControls false s)
  else s.

Definition handleScreenPress (s : State) : State :=
  if negb (isMountedRef s) then s
  else
    let newShowControls := negb (showControls s) in
    let s1 := setShowControls newShowControls s in
    let s2 := match controlsTimeoutRef s1 with
              | Some t => set_controlsTimeoutRef None (clearTimeout t s1)
              | None => s1
              end in
    if newShowControls
    then let '(t, s3) := setTimeout s2 in set_controlsTimeoutRef (Some t) s3
    else set_manualControlRef false s2.

Definition handleViewSensitiveContent (s : State) : State :=
  setPlaySensitive true s.

(** [onTimelineControlled(arg)]: calling a prop that is [undefined] throws. *)
Definition call_onTimelineControlled (arg : bool) (s : State) : State :=
  match onTimelineControlled (props s) with
  | Some f => add_call (invoke f arg) s
  | None => throw (TypeError_not_a_function "onTimelineControlled") s
  end.

Definition OnTimelineTouchStart (s : State) : State :=
  let s1 := setShowControls false s in
  let s2 := setShowDurationControl true s1 in
  let s3 := player_pause s2 in
  let s4 := setIsPlaying false s3 in
  call_onTimelineControlled true s4.

(** [player.duration * event.nativeEvent.pageX / SCREEN_WIDTH] *)
Definition newCurentTime (dur pageX : Q) : Q := (dur * pageX / SCREEN_WIDTH)%Q.

Definition onTimelineTouchMove (pageX : Q) (s : State) : State :=
  let s1 := player_seek (newCurentTime (duration (player s)) pageX) s in
  let progression := (currentTime (player s1) * 100 / duration (player s1))%Q in
  let s2 := setElapsedTimeProgression progression s1 in
  player_pause (player_play s2).

Definition OnTimelineTouchEnd (s : State) : State :=
  let s1 := setShowDurationControl false s in
  let s2 := player_play s1 in
  let s3 := setIsPlaying true s2 in
  call_onTimelineControlled false s3.

(** The cleanup of the mount-time effect, run when the item unmounts. *)
Definition unmount (s : State) : State :=
  match controlsTimeoutRef s with
  | Some t => clearTimeout t s
  | None => s
  end.

(** *** What is rendered *)

(** The early return that renders the warning overlay only. *)
Definition gated (s : State) : bool :=
  is_sensitive item && negb (playSensitive s).

(** [item.likes + (isLiked && !item.has_liked ? 1 : 0)] *)
Definition likesText (s : State) : Z :=
  likes item + (if isLiked s && negb (has_liked item) then 1 else 0).

(** [item.bookmarks + (isBookmarked && !item.has_bookmarked ? 1 : 0)] *)
Definition bookmarksText (s : State) : Z :=
  bookmarks item + (if isBookmarked s && negb (has_bookmarked item) then 1 else 0).

(** *** Events *)

Inductive Event : Type :=
(* a render with one prop changed *)
| SetActive (b : bool)
| SetScreenFocused (b : bool)
| SetCommentsOpen (b : bool)
| SetShareOpen (b : bool)
| SetOtherOpen (b : bool)
(* presses and touches *)
| PressWatchAnyways
| PressScreen
| PressPlayPause
| PressLike
| PressBookmark
| TouchStart
| TouchMove (pageX : Q)
| TouchEnd
(* the runtime fires the timer with this id *)
| Timeout (t : positive).

(** An event reaches its handler only when the element carrying the handler
    is in the rendered tree: the overlay alone while [gated] (it is rendered
    whether or not the row is the active one); otherwise the full-screen
    pressable unless [showControls] disables it, the play/pause button while
    [showControls], the action column unless [showDurationControl], and the
    timeline.  A timer fires only while it is pending. *)
Definition handle (e : Event) (s : State) : State :=
  match e with
  | SetActive b => set_props (with_isActive b (props s)) s
  | SetScreenFocused b => set_props (with_screenFocused b (props s)) s
  | SetCommentsOpen b => set_props (with_commentsOpen b (props s)) s
  | SetShareOpen b => set_props (with_shareOpen b (props s)) s
  | SetOtherOpen b => set_props (with_otherOpen b (props s)) s
  | PressWatchAnyways => if gated s then handleViewSensitiveContent s else s
  | PressScreen =>
      if negb (gated s) && negb (showControls s) then handleScreenPress s else s
  | PressPlayPause =>
      if negb (gated s) && showControls s then togglePlayPause s else s
  | PressLike =>
      if negb (gated s) && negb (showDurationControl s) then handleLike s else s
  | PressBookmark =>
      if negb (gated s) && negb (showDurationControl s) then handleBookmark s else s
  | TouchStart => if negb (gated s) then OnTimelineTouchStart s else s
  | TouchMove x => if negb (gated s) then onTimelineTouchMove x s else s
  | TouchEnd => if negb (gated s) then OnTimelineTouchEnd s else s
  | Timeout t =>
      if existsb (Pos.eqb t) (timers s)
      then controlsTimeout (clearTimeout t s)
      else s
  end.

(** One event: the handler, then the renders it causes. *)
Definition step (s : State) (e : Event) : State := flush (handle e s).

Definition run (s : State) (tr : list Event) : State := fold_left step tr s.

(** *** Notions used to state the properties of the component *)

(** A commit that runs the automatic effect only. *)
Definition rerun (s : State) : State :=
  set_lastDeps (deps_of s) (autoPlayEffect s).

(** The commit of a deactivation: the automatic effect, then the reset. *)
Definition deactivated (s : State) : State :=
  set_lastDeps (deps_of s)
    (setPlaySensitive false (set_manualControlRef false (autoPlayEffect s))).

(** What holds of every state the component reaches: the renders have
    settled and [isMountedRef] is still [true] (nothing ever sets it). *)
Definition sound (s : State) : Prop :=
  stable s /\ isMountedRef s = true.

(** While the overlay is up for a sensitive item, nothing plays. *)
Definition gate_closed (s : State) : Prop :=
  is_sensitive item && negb (playSensitive s) &&
  (isPlaying s || playing (player s)) = false.

(** Tracking along a trace whether the item is active and whether "watch
    anyways" was pressed since the item last went from active to inactive
    (or since it was mounted). *)
Definition track (st : bool * bool) (e : Event) : bool * bool :=
  match e with
  | SetActive b => (b, if fst st && negb b then false else snd st)
  | PressWatchAnyways => (fst st, true)
  | _ => st
  end.

Definition acknowledged (active0 : bool) (tr : list Event) : bool :=
  snd (fold_left track tr (active0, false)).

(** The stricter notion: only a press made while the item is active counts,
    and it counts for that activation only. *)
Definition track_activation (st : bool * bool) (e : Event) : bool * bool :=
  match e with
  | SetActive b => (b, if Bool.eqb (fst st) b then snd st else false)
  | PressWatchAnyways => (fst st, fst st || snd st)
  | _ => st
  end.

Definition acknowledged_in_activation (active0 : bool) (tr : list Event) : bool :=
  snd (fold_left track_activation tr (active0, false)).


(** At most one timer is pending, and it is the one [controlsTimeoutRef]
    holds. *)
Definition timer_tracked (s : State) : Prop :=
  timers s = [] \/ exists t, controlsTimeoutRef s = Some t /\ timers s = [t].

(** What the runtime can still do to an unmounted item: fire timers. *)
Definition fire (s : State) (t : positive) : State :=
  handle (Timeout t) s.

(** While the controls are shown, the timer that hides them is pending. *)
Definition controls_timed (s : State) : Prop :=
  (timers s = [] /\ showControls s = false) \/
  (exists t, controlsTimeoutRef s = Some t /\ timers s = [t]).

(** The hook state [isPlaying] says what the engine does. *)
Definition in_sync (s : State) : Prop := isPlaying s = playing (player s).

Definition is_TouchMove (e : Event) : bool :=
  match e with
  | TouchMove _ => true
  | _ => false
  end.

Definition is_PressPlayPause (e : Event) : bool :=
  match e with
  | PressPlayPause => true
  | _ => false
  end.

(** A render with a changed focus or modal prop. *)
Definition focus_or_modal (e : Event) : bool :=
  match e with
  | SetScreenFocused _ | SetCommentsOpen _ | SetShareOpen _ | SetOtherOpen _ => true
  | _ => false
  end.

Definition is_invoke (c : Call) : bool :=
  match c with
  | invoke _ _ => true
  | _ => false
  end.

End Component.

(** *** Sample items and props *)

(** A sensitive clip the viewer had liked, and a plain one. *)
Definition sensitive_clip : Item := mkItem 7 true 10 true 3 false.
Definition plain_clip : Item := mkItem 8 false 10 true 3 false.

(** Props of a row that is off screen, and of the row in view. *)
Definition row_off_screen : Props := mkProps false false false false true None None.
Definition row_in_view : Props := mkProps true false false false true None None.

End VideoPlayer.

(* ================================================================== *)
(** ** The feed screens *)
(* ================================================================== *)

(** What both screens share: feed rows, view tokens, and the requests a
    screen hands to its collaborators (query layer, list, request
    wrappers). *)
Module Feed.

Record Video : Type := mkVideo {
  video_id : Z;
  video_item : VideoPlayer.Item;
  (** [video.media.duration || 0] *)
  video_duration : Q
}.

(** A view token of the list; [index] may be [null]. *)
Record ViewToken : Type := mkViewToken {
  index : option nat
}.

(** [token.index || 0] *)
Definition index_or_0 (t : ViewToken) : nat :=
  match index t with
  | Some i => i
  | None => O
  end.

Inductive Request : Type :=
| refetch
| fetchNextPage
| scrollToOffset (offset : Z)
| videoLikeMutation (like : bool) (video : Z)
| videoBookmarkMutation (bookmark : bool) (video : Z)
| recordImpression (video : Z) (duration : Q) (completed : bool).

Definition is_refetch (r : Request) : bool :=
  match r with
  | refetch => true
  | _ => false
  end.

(** The lowest index among the reported rows (0 for an empty report). *)
Definition lowest_index (viewableItems : list ViewToken) : nat :=
  match map index_or_0 viewableItems with
  | [] => O
  | i :: rest => fold_right Nat.min i rest
  end.

(** The rows are reported in ascending index order. *)
Fixpoint ascending (l : list nat) : Prop :=
  match l with
  | [] => True
  | i :: rest => Forall (fun j => (i <= j)%nat) rest /\ ascending rest
  end.

(** *** Playback rates *)

(** The [videoPlaybackRates] object: item id to speed, the latest entry for
    an id first. *)
Definition Rates : Type := list (Z * Q).

(** [rates[id]] *)
Fixpoint lookup (rates : Rates) (i : Z) : option Q :=
  match rates with
  | [] => None
  | (j, speed) :: rest => if (i =? j)%Z then Some speed else lookup rest i
  end.

(** [setVideoPlaybackRates(prev => ({ ...prev, [selectedVideo.id]: speed }))],
    under [if (selectedVideo)]. *)
Definition handlePlaybackSpeedChange (selectedVideo : option Z) (speed : Q)
    (rates : Rates) : Rates :=
  match selectedVideo with
  | Some i => (i, speed) :: rates
  | None => rates
  end.

(** [videoPlaybackRates[item.id] || 1.0] *)
Definition playbackRate (rates : Rates) (i : Z) : Q :=
  match lookup rates i with
  | Some speed => if Qeq_bool speed 0 then 1 else speed
  | None => 1
  end.

(** [selectedVideo ? videoPlaybackRates[selectedVideo.id] || 1.0 : 1.0] *)
Definition currentPlaybackRate (selectedVideo : option Z) (rates : Rates) : Q :=
  match selectedVideo with
  | Some i => playbackRate rates i
  | None => 1
  end.

(** A row of the list: a video, or the end-of-feed marker. *)
Inductive Row : Type :=
| VideoRow (v : Video)
| EndMarker.



(** The three modal props of a rendered row are all off. *)
Definition no_modal (p : VideoPlayer.Props) : Prop :=
  VideoPlayer.commentsOpen p = false /\
  VideoPlayer.shareOpen p = false /\
  VideoPlayer.otherOpen p = false.

End Feed.

Module LoopsFeed.

Import Feed.

Inductive Tab : Type := following | local | forYou.

Definition tab_eqb (a b : Tab) : bool :=
  match a, b with
  | following, following | local, local | forYou, forYou => true
  | _, _ => false
  end.

(** The screen: hook state, refs, the scroll position of the list, what
    the query layer currently reports, and the requests issued so far (most
    recent first). *)
Record State : Type := mkState {
  (* useState *)
  activeTab : Tab;
  currentIndex : nat;
  selectedVideo : option Z;
  showComments : bool;
  showShare : bool;
  showOther : bool;
  screenFocused : bool;
  timelineIsControlled : bool;
  (* useRef *)
  currentVideoRef : option Video;
  watchStartTimeRef : option Z;
  (* the list *)
  scrollOffset : Z;
  (* useInfiniteQuery *)
  videos : list Video;
  hasNextPage : bool;
  isFetchingNextPage : bool;
  isFetching : bool;
  (* issued requests *)
  requests : list Request
}.

Definition setActiveTab (t : Tab) (s : State) : State :=
  mkState t (currentIndex s) (selectedVideo s) (showComments s) (showShare s) (showOther s)
    (screenFocused s) (timelineIsControlled s) (currentVideoRef s) (watchStartTimeRef s)
    (scrollOffset s) (videos s) (hasNextPage s) (isFetchingNextPage s) (isFetching s)
    (requests s).

Definition setCurrentIndex (i : nat) (s : State) : State :=
  mkState (activeTab s) i (selectedVideo s) (showComments s) (showShare s) (showOther s)
    (screenFocused s) (timelineIsControlled s) (currentVideoRef s) (watchStartTimeRef s)
    (scrollOffset s) (videos s) (hasNextPage s) (isFetchingNextPage s) (isFetching s)
    (requests s).

Definition setSelectedVideo (v : option Z) (s : State) : State :=
  mkState (activeTab s) (currentIndex s) v (showComments s) (showShare s) (showOther s)
    (screenFocused s) (timelineIsControlled s) (currentVideoRef s) (watchStartTimeRef s)
    (scrollOffset s) (videos s) (hasNextPage s) (isFetchingNextPage s) (isFetching s)
    (requests s).

Definition setShowComments (b : bool) (s : State) : State :=
  mkState (activeTab s) (currentIndex s) (selectedVideo s) b (showShare s) (showOther s)
    (screenFocused s) (timelineIsControlled s) (currentVideoRef s) (watchStartTimeRef s)
    (scrollOffset s) (videos s) (hasNextPage s) (isFetchingNextPage s) (isFetching s)
    (requests s).

Definition setShowShare (b : bool) (s : State) : State :=
  mkState (activeTab s) (currentIndex s) (selectedVideo s) (showComments s) b (showOther s)
    (screenFocused s) (timelineIsControlled s) (currentVideoRef s) (watchStartTimeRef s)
    (scrollOffset s) (videos s) (hasNextPage s) (isFetchingNextPage s) (isFetching s)
    (requests s).

Definition setShowOther (b : bool) (s : State) : State :=
  mkState (activeTab s) (currentIndex s) (selectedVideo s) (showComments s) (showShare s) b
    (screenFocused s) (timelineIsControlled s) (currentVideoRef s) (watchStartTimeRef s)
    (scrollOffset s) (videos s) (hasNextPage s) (isFetchingNextPage s) (isFetching s)
    (requests s).

Definition setScreenFocused (b : bool) (s : State) : State :=
  mkState (activeTab s) (currentIndex s) (selectedVideo s) (showComments s) (showShare s)
    (showOther s) b (timelineIsControlled s) (currentVideoRef s) (watchStartTimeRef s)
    (scrollOffset s) (videos s) (hasNextPage s) (isFetchingNextPage s) (isFetching s)
    (requests s).

Definition setTimelineIsControlled (b : bool) (s : State) : State :=
  mkState (activeTab s) (currentIndex s) (selectedVideo s) (showComments s) (showShare s)
    (showOther s) (screenFocused s) b (currentVideoRef s) (watchStartTimeRef s)
    (scrollOffset s) (videos s) (hasNextPage s) (isFetchingNextPage s) (isFetching s)
    (requests s).

Definition set_watch (v : option Video) (t : option Z) (s : State) : State :=
  mkState (activeTab s) (currentIndex s) (selectedVideo s) (showComments s) (showShare s)
    (showOther s) (screenFocused s) (timelineIsControlled s) v t
    (scrollOffset s) (videos s) (hasNextPage s) (isFetchingNextPage s) (isFetching s)
    (requests s).

Definition set_scrollOffset (o : Z) (s : State) : State :=
  mkState (activeTab s) (currentIndex s) (selectedVideo s) (showComments s) (showShare s)
    (showOther s) (screenFocused s) (timelineIsControlled s) (currentVideoRef s)
    (watchStartTimeRef s) o (videos s) (hasNextPage s) (isFetchingNextPage s) (isFetching s)
    (requests s).

Definition set_query (vs : list Video) (next fetchingNext fetching : bool) (s : State) : State :=
  mkState (activeTab s) (currentIndex s) (selectedVideo s) (showComments s) (showShare s)
    (showOther s) (screenFocused s) (timelineIsControlled s) (currentVideoRef s)
    (watchStartTimeRef s) (scrollOffset s) vs next fetchingNext fetching (requests s).

Definition request (r : Request) (s : State) : State :=
  mkState (activeTab s) (currentIndex s) (selectedVideo s) (showComments s) (showShare s)
    (showOther s) (screenFocused s) (timelineIsControlled s) (currentVideoRef s)
    (watchStartTimeRef s) (scrollOffset s) (videos s) (hasNextPage s) (isFetchingNextPage s)
    (isFetching s) (r :: requests s).

(** [flatListRef.current?.scrollToOffset({ offset, animated: false })]: the
    list jumps to the offset.  The elements whose handlers call it are
    rendered together with the list, so the ref is set when they run. *)
Definition flatList_scrollToOffset (o : Z) (s : State) : State :=
  set_scrollOffset o (request (scrollToOffset o) s).

(** The part of [recordVideoImpression] that runs before its [await]. *)
Definition recordVideoImpression (video : option Video) (duration : Q) (s : State) : State :=
  match video with
  | None => s
  | Some v =>
      if negb (tab_eqb (activeTab s) forYou) then s
      else if negb (Qle_bool 1 duration) then s
      else
        let videoDuration := video_duration v in
        let completed :=
          negb (Qle_bool videoDuration 0) &&
          Qle_bool (videoDuration * (9 # 10)) duration in
        request (recordImpression (video_id v) duration completed) s
  end.

(** [if (currentVideoRef.current && watchStartTimeRef.current) { ... }] *)
Definition recordWatch (now : Z) (s : State) : State :=
  match currentVideoRef s, watchStartTimeRef s with
  | Some v, Some t0 =>
      if (t0 =? 0)%Z then s
      else recordVideoImpression (Some v) (inject_Z (now - t0) / 1000) s
  | _, _ => s
  end.

(** [onViewableItemsChanged({ viewableItems })]; [now] is what [Date.now()]
    reads. *)
Definition onViewableItemsChanged (viewableItems : list ViewToken) (now : Z)
    (s : State) : State :=
  match viewableItems with
  | [] => s
  | first :: _ =>
      let newIndex := index_or_0 first in
      let newVideo := nth_error (videos s) newIndex in
      let s1 := recordWatch now s in
      let s2 := setCurrentIndex newIndex s1 in
      set_watch newVideo (Some now) s2
  end.

(** The [onPress] of a tab. *)
Definition onPressTab (t : Tab) (s : State) : State :=
  flatList_scrollToOffset 0 (setCurrentIndex 0 (setActiveTab t s)).

(** [onRefresh], up to its [await]. *)
Definition onRefresh (s : State) : State :=
  request refetch (flatList_scrollToOffset 0 s).

Definition handleEndReached (s : State) : State :=
  if hasNextPage s && negb (isFetchingNextPage s)
  then request fetchNextPage s
  else s.

Definition handleLike (videoId : Z) (liked : bool) (s : State) : State :=
  request (videoLikeMutation liked videoId) s.

Definition handleBookmark (videoId : Z) (bookmarked : bool) (s : State) : State :=
  request (videoBookmarkMutation bookmarked videoId) s.

Definition handleComment (video : Z) (s : State) : State :=
  setShowComments true (setSelectedVideo (Some video) s).

Definition handleShare (video : Z) (s : State) : State :=
  setShowShare true (setSelectedVideo (Some video) s).

Definition handleOther (video : Z) (s : State) : State :=
  setShowOther true (setSelectedVideo (Some video) s).

Definition handleNavigate (s : State) : State :=
  setShowOther false (setShowShare false (setShowComments false s)).

(** The focus effect and its cleanup. *)
Definition onFocus (s : State) : State := setScreenFocused true s.
Definition onBlur (now : Z) (s : State) : State :=
  recordWatch now (setScreenFocused false s).

(** The effect that leaves the personalized tab when it is disabled. *)
Definition forYouFallback (forYouEnabled : bool) (s : State) : State :=
  if negb forYouEnabled && tab_eqb (activeTab s) forYou
  then setActiveTab local s
  else s.

(** [selectedVideo?.id === item.id] *)
Definition selected (s : State) (v : Video) : bool :=
  match selectedVideo s with
  | Some i => (i =? video_id v)%Z
  | None => false
  end.

(** The props [renderItem] builds for the row at [index]. *)
Definition renderItem (s : State) (v : Video) (index : nat) : VideoPlayer.Props :=
  VideoPlayer.mkProps
    (index =? currentIndex s)%nat
    (showComments s && selected s v)
    (showShare s && selected s v)
    (showOther s && selected s v)
    (screenFocused s)
    None
    (Some VideoPlayer.setTimelineIsControlled).

(** A call a row makes on one of its callback props. *)
Definition deliver (c : VideoPlayer.Call) (s : State) : State :=
  match c with
  | VideoPlayer.onLike i b => handleLike i b s
  | VideoPlayer.onBookmark i b => handleBookmark i b s
  | VideoPlayer.invoke VideoPlayer.setTimelineIsControlled b => setTimelineIsControlled b s
  end.

(** [scrollEnabled={!timelineIsControlled}] *)
Definition scrollEnabled (s : State) : bool := negb (timelineIsControlled s).

Inductive Event : Type :=
| ViewableItemsChanged (viewableItems : list ViewToken) (now : Z)
| PressTab (t : Tab)
| Refresh
| EndReached
| RowCall (c : VideoPlayer.Call)
| Comment (video : Z)
| Share (video : Z)
| Other (video : Z)
| Navigate
| CloseComments
| CloseShare
| CloseOther
| Focus
| Blur (now : Z)
| ConfigLoaded (forYouEnabled : bool)
(* the user drags the list *)
| Scrolled (offset : Z)
(* the query layer reports new data or flags *)
| QueryChanged (vs : list Video) (next fetchingNext fetching : bool).

Definition step (s : State) (e : Event) : State :=
  match e with
  | ViewableItemsChanged items now => onViewableItemsChanged items now s
  | PressTab t => onPressTab t s
  | Refresh => onRefresh s
  | EndReached => handleEndReached s
  | RowCall c => deliver c s
  | Comment v => handleComment v s
  | Share v => handleShare v s
  | Other v => handleOther v s
  | Navigate => handleNavigate s
  | CloseComments => setShowComments false s
  | CloseShare => setShowShare false s
  | CloseOther => setShowOther false s
  | Focus => onFocus s
  | Blur now => onBlur now s
  | ConfigLoaded enabled => forYouFallback enabled s
  | Scrolled o => if scrollEnabled s then set_scrollOffset o s else s
  | QueryChanged vs next fetchingNext fetching => set_query vs next fetchingNext fetching s
  end.

Definition run (s : State) (tr : list Event) : State := fold_left step tr s.

(** The events that stand for scrolling and everything else short of a
    visibility report or a tab press. *)
Definition writes_pointer (e : Event) : bool :=
  match e with
  | ViewableItemsChanged (_ :: _) _ => true
  | PressTab _ => true
  | _ => false
  end.

(** Refetch calls among the issued requests. *)
Definition refetches (s : State) : nat :=
  List.length (filter is_refetch (requests s)).

(** A screen scrolled to the fourth row with a fetch pending. *)
Definition scrolled_feed : State :=
  mkState forYou 3 None false false false true false None None 2400
    [] true true true [].

(** [videosWithEnd] *)
Definition videosWithEnd (s : State) : list Row :=
  if tab_eqb (activeTab s) forYou && negb (hasNextPage s) &&
     (List.length (videos s) =? 0)%nat
  then map VideoRow (videos s) ++ [EndMarker]
  else map VideoRow (videos s).

(** [getItemLayout(data, index)]: (length, offset, index). *)
Definition getItemLayout (SCREEN_HEIGHT : Q) (index : nat) : Q * Q * nat :=
  (SCREEN_HEIGHT, (SCREEN_HEIGHT * inject_Z (Z.of_nat index))%Q, index).



End LoopsFeed.

Module ProfileFeed.

Import Feed.

Record State : Type := mkState {
  currentIndex : nat;
  selectedVideo : option Z;
  showComments : bool;
  showShare : bool;
  showOther : bool;
  screenFocused : bool;
  timelineIsControlled : bool
}.

Definition setCurrentIndex (i : nat) (s : State) : State :=
  mkState i (selectedVideo s) (showComments s) (showShare s) (showOther s)
    (screenFocused s) (timelineIsControlled s).

Definition onViewableItemsChanged (viewableItems : list ViewToken) (s : State) : State :=
  match viewableItems with
  | [] => s
  | first :: _ => setCurrentIndex (index_or_0 first) s
  end.

Definition selected (s : State) (v : Video) : bool :=
  match selectedVideo s with
  | Some i => (i =? video_id v)%Z
  | None => false
  end.

Definition renderItem (s : State) (v : Video) (index : nat) : VideoPlayer.Props :=
  VideoPlayer.mkProps
    (index =? currentIndex s)%nat
    (showComments s && selected s v)
    (showShare s && selected s v)
    (showOther s && selected s v)
    (screenFocused s)
    None
    (Some VideoPlayer.setTimelineIsControlled).

End ProfileFeed.

(* ================================================================== *)
(** ** Properties of the formatting utilities *)
(* ================================================================== *)

Module UtilsFacts.

Import Utils.
Local Open Scope string_scope.








(** C10: an input at or after the reference time has zero elapsed seconds
    (the negative difference is clamped before any bucketing), and
    [timeAgo] returns "now" for it. *)
Theorem timeAgo_future_is_now (tz clock input : Z) (now : option Z) :
  reference_time clock now <= input ->
  elapsed_seconds input (reference_time clock now) = 0 /\
  timeAgo tz clock input now = "now".
Proof.
  intros H.
  assert (E : elapsed_seconds input (reference_time clock now) = 0).
  { unfold elapsed_seconds.
    assert ((reference_time clock now - input) / 1000 <= 0).
    { apply Z.div_le_upper_bound; lia. }
    lia. }
  split; [exact E|].
  unfold timeAgo. rewrite E. reflexivity.
Qed.

Lemma timeAgo_future_is_now_witness :
  reference_time 0 (Some 1700000000000) <= 1700000900000 /\
  elapsed_seconds 1700000900000 (reference_time 0 (Some 1700000000000)) = 0 /\
  timeAgo 60 0 1700000900000 (Some 1700000000000) = "now".
Proof.
  split.
  - vm_compute. discriminate.
  - apply (timeAgo_future_is_now 60 0 1700000900000 (Some 1700000000000)).
    cbn. lia.
Defined.




End UtilsFacts.

(* ================================================================== *)
(** ** Properties of the video player item *)
(* ================================================================== *)

Module VideoPlayerFacts.

Import VideoPlayer.

(** Case analysis on the tests a handler or effect branches on: variables
    first, then compound scrutinees. *)
Ltac split_tests :=
  repeat (cbn in *;
          match goal with
          | |- context [if ?b then _ else _] => is_var b; destruct b
          | |- context [if ?b then _ else _] => destruct b eqn:?
          | |- context [match ?x with Some _ => _ | None => _ end] => destruct x eqn:?
          end);
  cbn in *.

Lemma deps_eqb_eq (a b : Deps) : deps_eqb a b = true <-> a = b.
Proof.
  destruct a as [a1 a2 a3 a4 a5 a6], b as [b1 b2 b3 b4 b5 b6].
  unfold deps_eqb; cbn. split.
  - intros H.
    repeat match type of H with
           | (_ && _)%bool = true => apply andb_prop in H; destruct H as [H ?]
           end.
    repeat match goal with
           | E : Bool.eqb _ _ = true |- _ => apply eqb_prop in E
           end.
    congruence.
  - intros H; injection H as -> -> -> -> -> ->.
    rewrite !eqb_reflx. reflexivity.
Qed.

Lemma deps_eqb_neq (a b : Deps) : deps_eqb a b = false <-> a <> b.
Proof.
  split.
  - intros H E. apply deps_eqb_eq in E. congruence.
  - intros H. destruct (deps_eqb a b) eqn:E; [|reflexivity].
    apply deps_eqb_eq in E. contradiction.
Qed.

Section Facts.

Variable item : Item.
Variable media_duration : Q.
Variable SCREEN_WIDTH : Q.

(** *** The effects leave the dependencies alone, except for the reset of
    [playSensitive] *)

Lemma autoPlayEffect_deps (s : State) :
  deps_of (autoPlayEffect item s) = deps_of s.
Proof. unfold autoPlayEffect, deps_of. split_tests; reflexivity. Qed.

Lemma rerun_stable (s : State) : deps_of (rerun item s) = lastDeps (rerun item s).
Proof.
  unfold rerun. cbn [lastDeps set_lastDeps].
  rewrite <- (autoPlayEffect_deps s). reflexivity.
Qed.

(** *** What [flush] amounts to *)

Lemma flush_same (s : State) :
  deps_of s = lastDeps s -> flush item s = s.
Proof.
  intros H. unfold flush, settle.
  rewrite (proj2 (deps_eqb_eq _ _) H). reflexivity.
Qed.

Lemma commit_auto (s : State) :
  deps_of s <> lastDeps s ->
  isActive (props s) = dep_isActive (lastDeps s) ->
  commit item s = rerun item s.
Proof.
  intros H Ha. unfold commit.
  rewrite (proj2 (deps_eqb_neq _ _) H).
  replace (dep_isActive (deps_of s)) with (isActive (props s)) by reflexivity.
  rewrite Ha, eqb_reflx. reflexivity.
Qed.

Lemma flush_auto (s : State) :
  deps_of s <> lastDeps s ->
  isActive (props s) = dep_isActive (lastDeps s) ->
  flush item s = rerun item s.
Proof.
  intros H Ha. unfold flush, settle.
  rewrite (proj2 (deps_eqb_neq _ _) H).
  rewrite (commit_auto s H Ha).
  rewrite (proj2 (deps_eqb_eq _ _) (rerun_stable s)). reflexivity.
Qed.

Lemma flush_activate (s : State) :
  isActive (props s) = true ->
  dep_isActive (lastDeps s) = false ->
  flush item s = rerun item s.
Proof.
  intros Ha Hl.
  assert (H : deps_of s <> lastDeps s).
  { intros E. rewrite <- E in Hl. cbn in Hl. congruence. }
  unfold flush, settle.
  rewrite (proj2 (deps_eqb_neq _ _) H).
  assert (C : commit item s = rerun item s).
  { unfold commit. rewrite (proj2 (deps_eqb_neq _ _) H).
    replace (dep_isActive (deps_of s)) with (isActive (props s)) by reflexivity.
    rewrite Ha, Hl. cbn [Bool.eqb].
    unfold resetEffect.
    replace (isActive (props (autoPlayEffect item s))) with (isActive (props s)).
    - rewrite Ha. reflexivity.
    - change (dep_isActive (deps_of s) = dep_isActive (deps_of (autoPlayEffect item s))).
      rewrite autoPlayEffect_deps. reflexivity. }
  rewrite C.
  rewrite (proj2 (deps_eqb_eq _ _) (rerun_stable s)). reflexivity.
Qed.

Lemma flush_deactivate (s : State) :
  isActive (props s) = false ->
  dep_isActive (lastDeps s) = true ->
  flush item s =
  if playSensitive s then rerun item (deactivated item s) else deactivated item s.
Proof.
  intros Ha Hl.
  assert (H : deps_of s <> lastDeps s).
  { intros E. rewrite <- E in Hl. cbn in Hl. congruence. }
  assert (C : commit item s = deactivated item s).
  { unfold commit. rewrite (proj2 (deps_eqb_neq _ _) H).
    replace (dep_isActive (deps_of s)) with (isActive (props s)) by reflexivity.
    rewrite Ha, Hl. cbn [Bool.eqb].
    unfold resetEffect.
    replace (isActive (props (autoPlayEffect item s))) with (isActive (props s)).
    - rewrite Ha. reflexivity.
    - change (dep_isActive (deps_of s) = dep_isActive (deps_of (autoPlayEffect item s))).
      rewrite autoPlayEffect_deps. reflexivity. }
  assert (D : deps_of (deactivated item s) =
              mkDeps (isActive (props s)) (commentsOpen (props s)) (shareOpen (props s))
                (otherOpen (props s)) (screenFocused (props s)) false).
  { unfold deactivated, deps_of. cbn.
    pose proof (autoPlayEffect_deps s) as E. unfold deps_of in E.
    injection E as -> -> -> -> -> _. reflexivity. }
  assert (L : lastDeps (deactivated item s) = deps_of s) by reflexivity.
  unfold flush, settle.
  rewrite (proj2 (deps_eqb_neq _ _) H), C.
  destruct (playSensitive s) eqn:Ps.
  - assert (N : deps_of (deactivated item s) <> lastDeps (deactivated item s)).
    { rewrite D, L. unfold deps_of. rewrite Ps. congruence. }
    rewrite (proj2 (deps_eqb_neq _ _) N).
    apply commit_auto; [exact N|].
    change (dep_isActive (deps_of (deactivated item s)) = dep_isActive (lastDeps (deactivated item s))).
    rewrite L, D. reflexivity.
  - assert (N : deps_of (deactivated item s) = lastDeps (deactivated item s)).
    { rewrite D, L. unfold deps_of. rewrite Ps. reflexivity. }
    rewrite (proj2 (deps_eqb_eq _ _) N). reflexivity.
Qed.

(** Every flush ends in a state whose dependencies are those of its last
    commit: two renders are enough. *)
Lemma flush_stable (s : State) : stable (flush item s).
Proof.
  unfold stable.
  destruct (deps_eqb (deps_of s) (lastDeps s)) eqn:E0.
  - rewrite flush_same by (apply deps_eqb_eq; exact E0). exact E0.
  - apply deps_eqb_neq in E0.
    destruct (Bool.eqb (isActive (props s)) (dep_isActive (lastDeps s))) eqn:Ea.
    + apply eqb_prop in Ea. rewrite flush_auto by assumption.
      apply deps_eqb_eq, rerun_stable.
    + apply eqb_false_iff in Ea.
      destruct (isActive (props s)) eqn:A, (dep_isActive (lastDeps s)) eqn:L;
        try congruence.
      * rewrite flush_activate by assumption. apply deps_eqb_eq, rerun_stable.
      * rewrite flush_deactivate by assumption.
        destruct (playSensitive s) eqn:Ps.
        -- apply deps_eqb_eq, rerun_stable.
        -- apply deps_eqb_eq. unfold deactivated, deps_of. cbn.
           pose proof (autoPlayEffect_deps s) as E. unfold deps_of in E.
           injection E as -> -> -> -> -> _. rewrite Ps. reflexivity.
Qed.

(** A field that neither effect writes is left alone by [flush]. *)
Lemma flush_frame {A : Type} (field : State -> A) :
  (forall s, field (autoPlayEffect item s) = field s) ->
  (forall s, field (resetEffect s) = field s) ->
  (forall d s, field (set_lastDeps d s) = field s) ->
  forall s, field (flush item s) = field s.
Proof.
  intros Ha Hr Hl.
  assert (C : forall s, field (commit item s) = field s).
  { intros s. unfold commit. rewrite Hl.
    destruct (Bool.eqb _ _); destruct (deps_eqb _ _); rewrite ?Hr, ?Ha; reflexivity. }
  intros s. unfold flush, settle.
  destruct (deps_eqb _ _); [reflexivity|].
  destruct (deps_eqb _ _); rewrite ?C; reflexivity.
Qed.

Ltac frame_field :=
  apply flush_frame; intros;
  unfold autoPlayEffect, resetEffect; split_tests; reflexivity.

Lemma flush_isMountedRef (s : State) : isMountedRef (flush item s) = isMountedRef s.
Proof. revert s. frame_field. Qed.

Lemma flush_isLiked (s : State) : isLiked (flush item s) = isLiked s.
Proof. revert s. frame_field. Qed.

Lemma flush_isBookmarked (s : State) : isBookmarked (flush item s) = isBookmarked s.
Proof. revert s. frame_field. Qed.

Lemma flush_calls (s : State) : calls (flush item s) = calls s.
Proof. revert s. frame_field. Qed.

Lemma flush_thrown (s : State) : thrown (flush item s) = thrown s.
Proof. revert s. frame_field. Qed.

Lemma flush_timers (s : State) : timers (flush item s) = timers s.
Proof. revert s. frame_field. Qed.

Lemma flush_controlsTimeoutRef (s : State) :
  controlsTimeoutRef (flush item s) = controlsTimeoutRef s.
Proof. revert s. frame_field. Qed.

(** *** Reachable states *)

Ltac crunch :=
  repeat (cbn in *;
          match goal with
          | Sens : is_sensitive item = _ |- context [is_sensitive item] => rewrite Sens
          | |- context [is_sensitive item] => destruct (is_sensitive item) eqn:?
          | |- context [if ?b then _ else _] =>
              match b with
              | context [?v] => is_var v; match type of v with bool => destruct v end
              end
          | |- context [if ?b then _ else _] => destruct b eqn:?
          | |- context [match ?x with Some _ => _ | None => _ end] => destruct x eqn:?
          end);
  cbn in *.

(** Closes a goal over booleans by cases on the variables left in it and
    in the hypotheses. *)
Ltac close_bool :=
  intros; cbn in *;
  try solve [reflexivity | discriminate | assumption | congruence];
  repeat match goal with
         | |- context [?v] =>
             is_var v; match type of v with bool => destruct v end; cbn in *
         end;
  try solve [reflexivity | discriminate | assumption | congruence];
  repeat match goal with
         | H : context [?v] |- _ =>
             is_var v; match type of v with bool => destruct v end; cbn in *
         end;
  solve [reflexivity | discriminate | assumption | congruence | intuition congruence].

Ltac unfold_handlers :=
  unfold handleLike, handleBookmark, togglePlayPause, handleScreenPress,
    handleViewSensitiveContent, OnTimelineTouchStart, onTimelineTouchMove,
    OnTimelineTouchEnd, call_onTimelineControlled, controlsTimeout, setTimeout,
    clearTimeout, gated.

Ltac resolve_flush :=
  first
    [ rewrite flush_same by reflexivity
    | rewrite flush_activate by reflexivity
    | rewrite flush_deactivate by reflexivity
    | rewrite flush_auto by (first [reflexivity | unfold deps_of; cbn; congruence]) ].

(** Opens a settled state into its fields, with [lastDeps] replaced by the
    dependencies of the state. *)
Ltac open_state s Hsound :=
  let Hst := fresh "Hst" in
  let Hm := fresh "Hm" in
  destruct Hsound as [Hst Hm];
  unfold stable in Hst; apply deps_eqb_eq in Hst;
  destruct s as [l bk sc sd ip ps ep mc im wa ct [pg tm du] [a c sh o f cb cb'] ld ts nt cs th];
  unfold deps_of in Hst; cbn in Hst, Hm; subst ld im.

(** Splits on the event, and for a prop change on the old and new value. *)
Ltac by_event e a f c sh o :=
  destruct e as [b|b|b|b|b| | | | | | |x| |t];
  unfold step, handle; unfold_handlers;
  [ destruct b, a | destruct b, f | destruct b, c | destruct b, sh | destruct b, o
  | .. ].

Arguments flush : simpl never.

Lemma step_sound (s : State) (e : Event) :
  sound s -> sound (step item SCREEN_WIDTH s e).
Proof.
  intros [Hst Hm]. split; [apply flush_stable|].
  unfold step.
  rewrite flush_isMountedRef. destruct e; unfold handle; unfold_handlers;
    crunch; try assumption; try discriminate; reflexivity.
Qed.

Lemma step_gate_closed (s : State) (e : Event) :
  sound s -> gate_closed item s -> gate_closed item (step item SCREEN_WIDTH s e).
Proof.
  intros Hs Hg. unfold gate_closed in *.
  destruct (is_sensitive item) eqn:Sens; [|reflexivity].
  open_state s Hs. revert Hg.
  by_event e a f c sh o; crunch; resolve_flush;
    unfold rerun, deactivated, autoPlayEffect, shouldPlay; crunch; close_bool.
Qed.

(** *** The state after mounting *)

Lemma mount_eq (p : Props) :
  mount item media_duration p = resetEffect (autoPlayEffect item (initial item media_duration p)).
Proof.
  unfold mount. apply flush_same.
  destruct p as [a c sh o f cb cb'].
  unfold resetEffect, autoPlayEffect, initial, shouldPlay, deps_of.
  crunch; close_bool.
Qed.

Lemma mount_sound (p : Props) : sound (mount item media_duration p).
Proof.
  split; [apply flush_stable|].
  rewrite mount_eq. destruct p as [a c sh o f cb cb'].
  unfold resetEffect, autoPlayEffect, initial, shouldPlay.
  crunch; close_bool.
Qed.

Lemma mount_gate_closed (p : Props) : gate_closed item (mount item media_duration p).
Proof.
  rewrite mount_eq. destruct p as [a c sh o f cb cb'].
  unfold gate_closed, resetEffect, autoPlayEffect, initial, shouldPlay.
  crunch; close_bool.
Qed.

Lemma mount_fields (p : Props) :
  props (mount item media_duration p) = p /\
  playSensitive (mount item media_duration p) = false /\
  manualControlRef (mount item media_duration p) = false /\
  timers (mount item media_duration p) = [] /\
  isLiked (mount item media_duration p) = has_liked item /\
  isBookmarked (mount item media_duration p) = has_bookmarked item.
Proof.
  rewrite mount_eq. destruct p as [a c sh o f cb cb'].
  unfold resetEffect, autoPlayEffect, initial, shouldPlay.
  crunch; repeat split; reflexivity.
Qed.

(** *** Acknowledgement along a trace *)

Lemma step_track (s : State) (e : Event) (st : bool * bool) :
  sound s ->
  isActive (props s) = fst st ->
  (playSensitive s = true -> snd st = true) ->
  isActive (props (step item SCREEN_WIDTH s e)) = fst (track st e) /\
  (playSensitive (step item SCREEN_WIDTH s e) = true -> snd (track st e) = true).
Proof.
  intros Hs Ha Hk. destruct st as [a0 k].
  open_state s Hs. cbn in Ha, Hk. subst a0. revert Hk.
  by_event e a f c sh o; crunch; resolve_flush;
    unfold rerun, deactivated, autoPlayEffect, shouldPlay; crunch;
    intros; split; try reflexivity; intros; try discriminate; auto.
Qed.

(** The invariant carried along a trace. *)
Lemma run_invariant (tr : list Event) :
  forall (s : State) (st : bool * bool),
    sound s -> gate_closed item s ->
    isActive (props s) = fst st ->
    (playSensitive s = true -> snd st = true) ->
    sound (run item SCREEN_WIDTH s tr) /\
    gate_closed item (run item SCREEN_WIDTH s tr) /\
    isActive (props (run item SCREEN_WIDTH s tr)) = fst (fold_left track tr st) /\
    (playSensitive (run item SCREEN_WIDTH s tr) = true ->
     snd (fold_left track tr st) = true).
Proof.
  induction tr as [|e tr IH]; intros s st Hs Hg Ha Hk.
  - cbn. auto.
  - cbn [run fold_left]. change (fold_left (step item SCREEN_WIDTH) tr (step item SCREEN_WIDTH s e))
      with (run item SCREEN_WIDTH (step item SCREEN_WIDTH s e) tr).
    destruct (step_track s e st Hs Ha Hk) as [Ha' Hk'].
    apply IH.
    + apply step_sound, Hs.
    + apply step_gate_closed; assumption.
    + exact Ha'.
    + exact Hk'.
Qed.

Lemma reachable_invariant (p : Props) (tr : list Event) :
  let s := run item SCREEN_WIDTH (mount item media_duration p) tr in
  sound s /\ gate_closed item s /\
  isActive (props s) = fst (fold_left track tr (isActive p, false)) /\
  (playSensitive s = true -> acknowledged (isActive p) tr = true).
Proof.
  destruct (mount_fields p) as [Hp [Hps _]].
  apply run_invariant.
  - apply mount_sound.
  - apply mount_gate_closed.
  - rewrite Hp. reflexivity.
  - rewrite Hps. discriminate.
Qed.

Lemma track_no_press (mid : list Event) :
  forall st : bool * bool,
    Forall (fun e => e <> PressWatchAnyways) mid ->
    snd st = false ->
    snd (fold_left track mid st) = false.
Proof.
  induction mid as [|e mid IH]; intros st Hf Hk; [exact Hk|].
  inversion Hf as [|? ? He Hf']; subst.
  cbn [fold_left]. apply IH; [exact Hf'|].
  destruct e; cbn; try exact Hk; try congruence.
  destruct (fst st && negb b); [reflexivity|exact Hk].
Qed.

(** A playing sensitive item has its warning acknowledged. *)
Lemma gate_closed_playing (s : State) :
  is_sensitive item = true ->
  gate_closed item s ->
  isPlaying s = true \/ playing (player s) = true ->
  playSensitive s = true.
Proof.
  unfold gate_closed. intros Sens Hg Hp. rewrite Sens in Hg.
  destruct (playSensitive s); [reflexivity|].
  destruct Hp as [Hp|Hp]; rewrite Hp in Hg; cbn in Hg;
    try discriminate Hg.
  rewrite orb_true_r in Hg. discriminate Hg.
Qed.

(** Deactivation resets the acknowledgement. *)
Lemma deactivation_resets (s : State) :
  sound s ->
  isActive (props s) = true ->
  playSensitive (step item SCREEN_WIDTH s (SetActive false)) = false /\
  manualControlRef (step item SCREEN_WIDTH s (SetActive false)) = false.
Proof.
  intros Hs Ha. open_state s Hs. cbn in Ha. subst a.
  unfold step, handle. cbn. resolve_flush.
  unfold rerun, deactivated, autoPlayEffect, shouldPlay; crunch; split; reflexivity.
Qed.

(** C1, as the code has it: for a sensitive item and every sequence of
    events from mounting on, the item is playing (as hook state or in the
    engine) only if "watch anyways" was pressed since the item last became
    inactive, or since it was mounted when it has not been inactive since;
    whenever the item goes from active to inactive the acknowledgement flag
    is reset to false; and after such a deactivation a re-activation with no
    press in between leaves the item not playing. *)
Theorem sensitive_gate (p : Props) :
  is_sensitive item = true ->
  (forall tr : list Event,
      let s := run item SCREEN_WIDTH (mount item media_duration p) tr in
      isPlaying s = true \/ playing (player s) = true ->
      acknowledged (isActive p) tr = true) /\
  (forall tr : list Event,
      let s := run item SCREEN_WIDTH (mount item media_duration p) tr in
      isActive (props s) = true ->
      playSensitive (step item SCREEN_WIDTH s (SetActive false)) = false) /\
  (forall tr mid : list Event,
      let s := run item SCREEN_WIDTH (mount item media_duration p) tr in
      isActive (props s) = true ->
      Forall (fun e => e <> PressWatchAnyways) mid ->
      let s' := run item SCREEN_WIDTH s (SetActive false :: mid ++ [SetActive true]) in
      isActive (props s') = true /\ isPlaying s' = false /\ playing (player s') = false).
Proof.
  intros Sens. split; [|split].
  - intros tr s Hp.
    destruct (reachable_invariant p tr) as [_ [Hg [_ Hk]]].
    apply Hk. apply gate_closed_playing; assumption.
  - intros tr s Ha.
    destruct (reachable_invariant p tr) as [Hs _].
    apply deactivation_resets; assumption.
  - intros tr mid s Ha Hmid s'.
    destruct (reachable_invariant p tr) as [Hs [Hg _]].
    fold s in Hs, Hg.
    assert (I : sound s' /\ gate_closed item s' /\
                isActive (props s') =
                fst (fold_left track (SetActive false :: mid ++ [SetActive true]) (true, true)) /\
                (playSensitive s' = true ->
                 snd (fold_left track (SetActive false :: mid ++ [SetActive true]) (true, true)) = true)).
    { apply run_invariant; auto. }
    destruct I as [_ [Hg' [Ha' Hk']]].
    cbn [fold_left track fst snd andb negb] in Ha', Hk'.
    rewrite fold_left_app in Ha', Hk'. cbn [fold_left track fst snd] in Ha', Hk'.
    assert (K : snd (fold_left track mid (false, false)) = false)
      by (apply track_no_press; [exact Hmid|reflexivity]).
    split; [exact Ha'|].
    assert (Ps : playSensitive s' = false).
    { destruct (playSensitive s'); [|reflexivity].
      specialize (Hk' eq_refl). cbn in Hk'.
      rewrite ?andb_false_r in Hk'. rewrite K in Hk'. discriminate Hk'. }
    unfold gate_closed in Hg'. rewrite Sens, Ps in Hg'. cbn [negb andb] in Hg'.
    apply orb_false_elim in Hg'. exact Hg'.
Qed.

(** *** Manual control *)




(** The callback of the auto-hide timer and the hiding branch of
    [handleScreenPress] both clear the flag. *)
Lemma controlsTimeout_clears (s : State) :
  isMountedRef s = true ->
  manualControlRef (controlsTimeout s) = false /\ showControls (controlsTimeout s) = false.
Proof. intros H. unfold controlsTimeout. rewrite H. split; reflexivity. Qed.

Lemma handleScreenPress_hiding_clears (s : State) :
  isMountedRef s = true ->
  showControls s = true ->
  manualControlRef (handleScreenPress s) = false.
Proof.
  intros Hm Hc. unfold handleScreenPress. rewrite Hm, Hc. cbn.
  destruct (controlsTimeoutRef s); reflexivity.
Qed.


(** *** Automatic pause *)

(** Losing the screen focus pauses an item that is not under manual
    control. *)
Lemma focus_loss_pauses (s : State) :
  sound s ->
  manualControlRef s = false ->
  screenFocused (props s) = true ->
  isPlaying (step item SCREEN_WIDTH s (SetScreenFocused false)) = false /\
  playing (player (step item SCREEN_WIDTH s (SetScreenFocused false))) = false.
Proof.
  intros Hs Hm Hf. open_state s Hs. cbn in Hm, Hf. subst mc f.
  unfold step, handle. cbn. resolve_flush.
  unfold rerun, autoPlayEffect, shouldPlay. crunch; split; reflexivity.
Qed.

(** A change of a modal prop re-runs the automatic effect, whose test does
    not read the modal props: an item that should play is (re)started. *)
Lemma modal_change_plays (s : State) (e : Event) :
  sound s ->
  manualControlRef s = false ->
  shouldPlay item s = true ->
  (exists b, e = SetCommentsOpen b \/ e = SetShareOpen b \/ e = SetOtherOpen b) ->
  isPlaying (step item SCREEN_WIDTH s e) = isPlaying s \/
  isPlaying (step item SCREEN_WIDTH s e) = true.
Proof.
  intros Hs Hm Hp [b [E|[E|E]]]; subst e; open_state s Hs; cbn in Hm; subst mc;
    unfold shouldPlay in Hp; cbn in Hp;
    unfold step, handle;
    [ destruct b, c | destruct b, sh | destruct b, o ];
    cbn; resolve_flush; auto;
    revert Hp; unfold rerun, autoPlayEffect, shouldPlay; crunch;
    intros; try discriminate; auto.
Qed.

(** *** Like and bookmark *)

Lemma step_like (s : State) :
  gated item s = false ->
  showDurationControl s = false ->
  isLiked (step item SCREEN_WIDTH s PressLike) = negb (isLiked s) /\
  calls (step item SCREEN_WIDTH s PressLike) = onLike (id item) (negb (isLiked s)) :: calls s.
Proof.
  intros Hg Hd. unfold step. rewrite flush_isLiked, flush_calls.
  unfold handle. rewrite Hg, Hd. cbn. split; reflexivity.
Qed.

Lemma step_bookmark (s : State) :
  gated item s = false ->
  showDurationControl s = false ->
  isBookmarked (step item SCREEN_WIDTH s PressBookmark) = negb (isBookmarked s) /\
  calls (step item SCREEN_WIDTH s PressBookmark) =
  onBookmark (id item) (negb (isBookmarked s)) :: calls s.
Proof.
  intros Hg Hd. unfold step. rewrite flush_isBookmarked, flush_calls.
  unfold handle. rewrite Hg, Hd. cbn. split; reflexivity.
Qed.

Lemma step_keeps_like (s : State) (e : Event) :
  e <> PressLike -> isLiked (step item SCREEN_WIDTH s e) = isLiked s.
Proof.
  intros He. unfold step. rewrite flush_isLiked.
  destruct e; try congruence; unfold handle; unfold_handlers; split_tests; reflexivity.
Qed.

Lemma step_keeps_bookmark (s : State) (e : Event) :
  e <> PressBookmark -> isBookmarked (step item SCREEN_WIDTH s e) = isBookmarked s.
Proof.
  intros He. unfold step. rewrite flush_isBookmarked.
  destruct e; try congruence; unfold handle; unfold_handlers; split_tests; reflexivity.
Qed.

(** C7, as the code has it: the displayed like (bookmark) counter is the
    item's original count, plus one exactly when the local flag is on and
    the original flag was off; it is never below the original count.  A
    tap on the rendered button flips the local flag at once and passes the
    new value to the parent; no other event changes the flag, so the
    outcome of the mutation has no way back into it. *)
Theorem optimistic_counters (s : State) :
  (likesText item s = likes item + (if isLiked s && negb (has_liked item) then 1 else 0) /\
   likes item <= likesText item s /\
   (has_liked item = true -> likesText item s = likes item)) /\
  (bookmarksText item s =
     bookmarks item + (if isBookmarked s && negb (has_bookmarked item) then 1 else 0) /\
   bookmarks item <= bookmarksText item s /\
   (has_bookmarked item = true -> bookmarksText item s = bookmarks item)) /\
  (gated item s = false -> showDurationControl s = false ->
   isLiked (step item SCREEN_WIDTH s PressLike) = negb (isLiked s) /\
   calls (step item SCREEN_WIDTH s PressLike) = onLike (id item) (negb (isLiked s)) :: calls s) /\
  (gated item s = false -> showDurationControl s = false ->
   isBookmarked (step item SCREEN_WIDTH s PressBookmark) = negb (isBookmarked s) /\
   calls (step item SCREEN_WIDTH s PressBookmark) =
   onBookmark (id item) (negb (isBookmarked s)) :: calls s) /\
  (forall e, e <> PressLike -> isLiked (step item SCREEN_WIDTH s e) = isLiked s) /\
  (forall e, e <> PressBookmark -> isBookmarked (step item SCREEN_WIDTH s e) = isBookmarked s).
Proof.
  split; [|split; [|split; [|split; [|split]]]].
  - unfold likesText. split; [reflexivity|]. split.
    + destruct (isLiked s && negb (has_liked item)); lia.
    + intros H. rewrite H, andb_false_r. lia.
  - unfold bookmarksText. split; [reflexivity|]. split.
    + destruct (isBookmarked s && negb (has_bookmarked item)); lia.
    + intros H. rewrite H, andb_false_r. lia.
  - apply step_like.
  - apply step_bookmark.
  - intros e. apply step_keeps_like.
  - intros e. apply step_keeps_bookmark.
Qed.

(** *** The auto-hide timer *)

Lemma handle_timer_tracked (s : State) (e : Event) :
  timer_tracked s -> timer_tracked (handle item SCREEN_WIDTH e s).
Proof.
  intros [H0|[t0 [Hr Ht]]].
  - destruct s as [l bk sc sd ip ps ep mc im wa ct pl pp ld ts nt cs th].
    cbn in H0. subst ts.
    destruct e; unfold handle; unfold_handlers; split_tests;
      try (left; reflexivity); try discriminate;
      right; eexists; split; reflexivity.
  - destruct s as [l bk sc sd ip ps ep mc im wa ct pl pp ld ts nt cs th].
    cbn in Hr, Ht. subst ct ts.
    destruct e; unfold handle; unfold_handlers; cbn;
      repeat match goal with
             | |- context [(?x =? ?x)%positive] => rewrite Pos.eqb_refl; cbn
             | |- context [if ?b then _ else _] => destruct b eqn:?; cbn
             | |- context [match ?x with Some _ => _ | None => _ end] =>
                 destruct x eqn:?; cbn
             end;
      try (left; reflexivity);
      try (right; eexists; split; reflexivity).
    all: repeat match goal with
           | E : (_ || false)%bool = true |- _ => rewrite orb_false_r in E
           | E : (_ =? _)%positive = true |- _ => apply Pos.eqb_eq in E; subst
           | E : context [(?x =? ?x)%positive] |- _ => rewrite Pos.eqb_refl in E; cbn in E
           end; try discriminate; try (left; reflexivity).
Qed.

Lemma step_timer_tracked (s : State) (e : Event) :
  timer_tracked s -> timer_tracked (step item SCREEN_WIDTH s e).
Proof.
  intros H. apply (handle_timer_tracked s e) in H.
  unfold timer_tracked, step in *.
  rewrite flush_timers, flush_controlsTimeoutRef. exact H.
Qed.

Lemma run_timer_tracked (tr : list Event) :
  forall s, timer_tracked s -> timer_tracked (run item SCREEN_WIDTH s tr).
Proof.
  induction tr as [|e tr IH]; intros s H; [exact H|].
  cbn [run fold_left]. apply IH, step_timer_tracked, H.
Qed.

Lemma unmount_no_timer (s : State) :
  timer_tracked s -> timers (unmount s) = [].
Proof.
  intros [H0|[t [Hr Ht]]]; unfold unmount.
  - destruct (controlsTimeoutRef s); [|exact H0].
    unfold clearTimeout. cbn. rewrite H0. reflexivity.
  - rewrite Hr. unfold clearTimeout. cbn. rewrite Ht. cbn.
    rewrite Pos.eqb_refl. reflexivity.
Qed.

Lemma fire_nothing_pending (s : State) (ts : list positive) :
  timers s = [] -> fold_left (fire item SCREEN_WIDTH) ts s = s.
Proof.
  intros H. induction ts as [|t ts IH]; [reflexivity|].
  cbn [fold_left]. unfold fire at 2. unfold handle. rewrite H. cbn. exact IH.
Qed.

(** C9: whatever the item went through, unmounting it leaves no timer
    pending (a pending auto-hide timer is cancelled), throws nothing, and
    from then on no timer the runtime fires changes the state. *)
Theorem unmount_cancels_timer (p : Props) (tr : list Event) :
  let s := run item SCREEN_WIDTH (mount item media_duration p) tr in
  timers (unmount s) = [] /\
  thrown (unmount s) = thrown s /\
  forall ts : list positive, fold_left (fire item SCREEN_WIDTH) ts (unmount s) = unmount s.
Proof.
  intros s.
  assert (T : timer_tracked s).
  { apply run_timer_tracked. left. apply mount_fields. }
  split; [apply unmount_no_timer, T|]. split.
  - unfold unmount. destruct (controlsTimeoutRef s); reflexivity.
  - intros ts. apply fire_nothing_pending, unmount_no_timer, T.
Qed.

(** *** Further invariants of the component *)

Lemma flush_showControls (s : State) : showControls (flush item s) = showControls s.
Proof. revert s. frame_field. Qed.

Lemma flush_callback (s : State) :
  onTimelineControlled (props (flush item s)) = onTimelineControlled (props s).
Proof.
  revert s.
  apply (flush_frame (fun s => onTimelineControlled (props s))); intros;
    unfold autoPlayEffect, resetEffect; split_tests; reflexivity.
Qed.

Lemma handle_controls_timed (s : State) (e : Event) :
  isMountedRef s = true ->
  controls_timed s -> controls_timed (handle item SCREEN_WIDTH e s).
Proof.
  intros Hm [[H0 Hc]|[t0 [Hr Ht]]].
  - destruct s as [l bk sc sd ip ps ep mc im wa ct pl pp ld ts nt cs th].
    cbn in H0, Hc, Hm. subst ts sc im.
    destruct e; unfold handle; unfold_handlers; split_tests;
      try (left; split; reflexivity); try discriminate;
      right; eexists; split; reflexivity.
  - destruct s as [l bk sc sd ip ps ep mc im wa ct pl pp ld ts nt cs th].
    cbn in Hr, Ht, Hm. subst ct ts im.
    destruct e; unfold handle; unfold_handlers; cbn;
      repeat match goal with
             | |- context [(?x =? ?x)%positive] => rewrite Pos.eqb_refl; cbn
             | |- context [if ?b then _ else _] => destruct b eqn:?; cbn
             | |- context [match ?x with Some _ => _ | None => _ end] =>
                 destruct x eqn:?; cbn
             end;
      try (left; split; reflexivity);
      try (right; eexists; split; reflexivity).
    all: repeat match goal with
           | E : (_ || false)%bool = true |- _ => rewrite orb_false_r in E
           | E : (_ =? _)%positive = true |- _ => apply Pos.eqb_eq in E; subst
           | E : context [(?x =? ?x)%positive] |- _ => rewrite Pos.eqb_refl in E; cbn in E
           end; try discriminate; try (left; split; reflexivity).
Qed.

Lemma run_controls_timed (tr : list Event) :
  forall s, sound s -> controls_timed s -> controls_timed (run item SCREEN_WIDTH s tr).
Proof.
  induction tr as [|e tr IH]; intros s Hs H; [exact H|].
  cbn [run fold_left]. apply IH; [apply step_sound, Hs|].
  apply (handle_controls_timed s e (proj2 Hs)) in H.
  unfold controls_timed, step in *.
  rewrite flush_timers, flush_controlsTimeoutRef, flush_showControls. exact H.
Qed.

(** X11: in every state the item reaches, at most one auto-hide timer is
    pending, it is the one [controlsTimeoutRef] holds, and the controls are
    shown only while that timer is pending: timers never stack and shown
    controls always have their hiding scheduled. *)
Theorem controls_shown_have_timer (p : Props) (tr : list Event) :
  let s := run item SCREEN_WIDTH (mount item media_duration p) tr in
  (List.length (timers s) <= 1)%nat /\
  (forall t, In t (timers s) -> controlsTimeoutRef s = Some t) /\
  (showControls s = true -> exists t, timers s = [t]).
Proof.
  intros s.
  assert (C : controls_timed s).
  { apply run_controls_timed; [apply mount_sound|].
    left. split; [apply mount_fields|].
    rewrite mount_eq. destruct p as [a c sh o f cb cb'].
    unfold resetEffect, autoPlayEffect, initial, shouldPlay. crunch; reflexivity. }
  destruct C as [[H0 Hc]|[t0 [Hr Ht]]].
  - rewrite H0, Hc. split; [cbn; lia|]. split; [intros t []|discriminate].
  - rewrite Ht, Hr. split; [cbn; lia|]. split.
    + intros t [E|[]]. subst t. reflexivity.
    + intros _. exists t0. reflexivity.
Qed.

Lemma step_in_sync (s : State) (e : Event) :
  sound s ->
  in_sync s ->
  is_TouchMove e = false \/ isPlaying s = false ->
  in_sync (step item SCREEN_WIDTH s e).
Proof.
  intros Hs Hi He. unfold in_sync in *.
  open_state s Hs. cbn in Hi. subst pg. revert He.
  by_event e a f c sh o; crunch; resolve_flush;
    unfold rerun, deactivated, autoPlayEffect, shouldPlay; crunch;
    intros [He|He]; try discriminate; try reflexivity; assumption.
Qed.

Lemma run_in_sync (tr : list Event) :
  forall s, sound s -> in_sync s ->
       forallb (fun e => negb (is_TouchMove e)) tr = true ->
       in_sync (run item SCREEN_WIDTH s tr).
Proof.
  induction tr as [|e tr IH]; intros s Hs Hi Hf; [exact Hi|].
  cbn [forallb] in Hf. apply andb_prop in Hf. destruct Hf as [He Hf].
  cbn [run fold_left]. apply IH; [apply step_sound, Hs| |exact Hf].
  apply step_in_sync; auto. left. destruct (is_TouchMove e); [discriminate|reflexivity].
Qed.

(** X12: along every sequence of events without timeline moves, the hook
    state [isPlaying] (what the play/pause icon shows) equals what the
    engine does; a timeline move on a paused item keeps them equal too. *)
Theorem hook_mirrors_engine (p : Props) (tr : list Event) :
  forallb (fun e => negb (is_TouchMove e)) tr = true ->
  let s := run item SCREEN_WIDTH (mount item media_duration p) tr in
  in_sync s /\
  (forall x, isPlaying s = false -> in_sync (step item SCREEN_WIDTH s (TouchMove x))).
Proof.
  intros Hf s.
  assert (I : in_sync s).
  { apply run_in_sync; [apply mount_sound| |exact Hf].
    unfold in_sync. rewrite mount_eq. destruct p as [a c sh o f cb cb'].
    unfold resetEffect, autoPlayEffect, initial, shouldPlay. crunch; reflexivity. }
  split; [exact I|]. intros x Hp.
  apply step_in_sync; auto.
  apply (reachable_invariant p tr).
Qed.

Lemma step_deactivate (s : State) :
  sound s ->
  isActive (props s) = true ->
  let s' := step item SCREEN_WIDTH s (SetActive false) in
  (manualControlRef s = false -> isPlaying s' = false /\ playing (player s') = false) /\
  (manualControlRef s = true -> playSensitive s = true ->
   isPlaying s' = false /\ playing (player s') = false) /\
  (manualControlRef s = true -> playSensitive s = false ->
   isPlaying s' = isPlaying s /\ playing (player s') = playing (player s)).
Proof.
  intros Hs Ha. open_state s Hs. cbn in Ha. subst a.
  unfold step, handle. cbn. resolve_flush.
  unfold rerun, deactivated, autoPlayEffect, shouldPlay; crunch;
    repeat split; intros; try discriminate; reflexivity.
Qed.

(** X13: when the active item becomes inactive, the manual-control and
    acknowledgement flags are cleared and the item is paused, except when it
    was under manual control with its acknowledgement flag unset (so for
    every item that is not sensitive): then no further render follows the
    reset and the play state the user chose is kept as it is. *)
Theorem deactivation_effect (p : Props) (tr : list Event) :
  let s := run item SCREEN_WIDTH (mount item media_duration p) tr in
  isActive (props s) = true ->
  let s' := step item SCREEN_WIDTH s (SetActive false) in
  manualControlRef s' = false /\ playSensitive s' = false /\
  (manualControlRef s = false -> isPlaying s' = false /\ playing (player s') = false) /\
  (manualControlRef s = true -> playSensitive s = true ->
   isPlaying s' = false /\ playing (player s') = false) /\
  (manualControlRef s = true -> playSensitive s = false ->
   isPlaying s' = isPlaying s /\ playing (player s') = playing (player s)).
Proof.
  intros s Ha s'.
  destruct (reachable_invariant p tr) as [Hs _]. fold s in Hs.
  destruct (deactivation_resets s Hs Ha) as [R1 R2].
  destruct (step_deactivate s Hs Ha) as [D1 [D2 D3]].
  split; [exact R2|]. split; [exact R1|]. split; [exact D1|]. split; [exact D2|exact D3].
Qed.

Lemma step_fresh (s : State) (e : Event) :
  sound s ->
  manualControlRef s = false ->
  wasActiveRef s = isActive (props s) ->
  is_PressPlayPause e = false ->
  manualControlRef (step item SCREEN_WIDTH s e) = false /\
  wasActiveRef (step item SCREEN_WIDTH s e) = isActive (props (step item SCREEN_WIDTH s e)).
Proof.
  intros Hs Hm Hw He. open_state s Hs. cbn in Hm, Hw. subst mc wa. revert He.
  by_event e a f c sh o; crunch; resolve_flush;
    unfold rerun, deactivated, autoPlayEffect, shouldPlay; crunch;
    intros; try discriminate; split; reflexivity.
Qed.

Lemma run_fresh (tr : list Event) :
  forall s, sound s -> manualControlRef s = false ->
       wasActiveRef s = isActive (props s) ->
       forallb (fun e => negb (is_PressPlayPause e)) tr = true ->
       manualControlRef (run item SCREEN_WIDTH s tr) = false /\
       wasActiveRef (run item SCREEN_WIDTH s tr) = isActive (props (run item SCREEN_WIDTH s tr)).
Proof.
  induction tr as [|e tr IH]; intros s Hs Hm Hw Hf; [auto|].
  cbn [forallb] in Hf. apply andb_prop in Hf. destruct Hf as [He Hf].
  assert (He' : is_PressPlayPause e = false)
    by (destruct (is_PressPlayPause e); [discriminate|reflexivity]).
  destruct (step_fresh s e Hs Hm Hw He') as [M W].
  cbn [run fold_left]. apply IH; auto. apply step_sound, Hs.
Qed.

Lemma step_position (s : State) :
  sound s ->
  manualControlRef s = false ->
  wasActiveRef s = isActive (props s) ->
  (isActive (props s) = false ->
   currentTime (player (step item SCREEN_WIDTH s (SetActive true))) = 0%Q) /\
  (forall e, focus_or_modal e = true ->
        currentTime (player (step item SCREEN_WIDTH s e)) = currentTime (player s)).
Proof.
  intros Hs Hm Hw. split.
  - intros Ha. open_state s Hs. cbn in Hm, Hw, Ha. subst mc wa a.
    unfold step, handle. cbn. resolve_flush.
    unfold rerun, autoPlayEffect, shouldPlay; crunch; reflexivity.
  - intros e He. open_state s Hs. cbn in Hm, Hw. subst mc wa. revert He.
    by_event e a f c sh o; crunch; intros; try discriminate; resolve_flush;
      unfold rerun, autoPlayEffect, shouldPlay; crunch; reflexivity.
Qed.

(** X14: along every sequence of events in which the play/pause button is
    never pressed, an item that becomes active starts again from position
    0, and a change of screen focus or of a modal prop leaves the position
    where it is. *)
Theorem activation_restarts_position (p : Props) (tr : list Event) :
  forallb (fun e => negb (is_PressPlayPause e)) tr = true ->
  let s := run item SCREEN_WIDTH (mount item media_duration p) tr in
  (isActive (props s) = false ->
   currentTime (player (step item SCREEN_WIDTH s (SetActive true))) = 0%Q) /\
  (forall e, focus_or_modal e = true ->
        currentTime (player (step item SCREEN_WIDTH s e)) = currentTime (player s)).
Proof.
  intros Hf s.
  destruct (reachable_invariant p tr) as [Hs _]. fold s in Hs.
  destruct (mount_fields p) as [Hp [_ [Hm _]]].
  assert (W : wasActiveRef (mount item media_duration p) =
              isActive (props (mount item media_duration p))).
  { rewrite mount_eq. destruct p as [a c sh o f cb cb'].
    unfold resetEffect, autoPlayEffect, initial, shouldPlay. crunch; reflexivity. }
  destruct (run_fresh tr _ (mount_sound p) Hm W Hf) as [M W'].
  apply step_position; assumption.
Qed.

Lemma step_like_eq (s : State) :
  sound s -> gated item s = false -> showDurationControl s = false ->
  step item SCREEN_WIDTH s PressLike = handleLike item s /\
  step item SCREEN_WIDTH s PressBookmark = handleBookmark item s.
Proof.
  intros [Hst _] Hg Hd. unfold stable in Hst. apply deps_eqb_eq in Hst.
  unfold step, handle. rewrite Hg, Hd. cbn [negb andb].
  split; apply flush_same; exact Hst.
Qed.

(** X15: on a state the item reaches with its action column rendered, two
    taps on the heart (or on the bookmark) bring the local flag and the
    displayed counter back to what they were, and the parent is called
    twice, first with the flipped value and then with the original one. *)
Theorem double_tap_restores (p : Props) (tr : list Event) :
  let s := run item SCREEN_WIDTH (mount item media_duration p) tr in
  gated item s = false -> showDurationControl s = false ->
  let l2 := step item SCREEN_WIDTH (step item SCREEN_WIDTH s PressLike) PressLike in
  let b2 := step item SCREEN_WIDTH (step item SCREEN_WIDTH s PressBookmark) PressBookmark in
  (isLiked l2 = isLiked s /\ likesText item l2 = likesText item s /\
   calls l2 = onLike (id item) (isLiked s) :: onLike (id item) (negb (isLiked s)) :: calls s) /\
  (isBookmarked b2 = isBookmarked s /\ bookmarksText item b2 = bookmarksText item s /\
   calls b2 =
   onBookmark (id item) (isBookmarked s) :: onBookmark (id item) (negb (isBookmarked s)) :: calls s).
Proof.
  intros s Hg Hd l2 b2.
  destruct (reachable_invariant p tr) as [Hs _]. fold s in Hs.
  destruct (step_like_eq s Hs Hg Hd) as [EL EB].
  assert (SL : sound (handleLike item s)) by (rewrite <- EL; apply step_sound, Hs).
  assert (SB : sound (handleBookmark item s)) by (rewrite <- EB; apply step_sound, Hs).
  destruct (step_like_eq (handleLike item s) SL Hg Hd) as [EL2 _].
  destruct (step_like_eq (handleBookmark item s) SB Hg Hd) as [_ EB2].
  subst l2 b2. rewrite EL, EL2, EB, EB2.
  unfold likesText, bookmarksText, handleLike, handleBookmark. cbn.
  rewrite !negb_involutive. repeat split; reflexivity.
Qed.

Lemma handle_no_invoke (s : State) (e : Event) :
  onTimelineControlled (props s) = None ->
  existsb is_invoke (calls s) = false ->
  onTimelineControlled (props (handle item SCREEN_WIDTH e s)) = None /\
  existsb is_invoke (calls (handle item SCREEN_WIDTH e s)) = false.
Proof.
  intros Hp Hc.
  destruct s as [l bk sc sd ip ps ep mc im wa ct pl [a c sh o f cb cb'] ld ts nt cs th].
  cbn in Hp, Hc. subst cb.
  destruct e; unfold handle; unfold_handlers; split_tests; split;
    try reflexivity; try assumption.
Qed.

Lemma run_no_invoke (p : Props) (tr : list Event) :
  onTimelineControlled p = None ->
  onTimelineControlled (props (run item SCREEN_WIDTH (mount item media_duration p) tr)) = None /\
  existsb is_invoke (calls (run item SCREEN_WIDTH (mount item media_duration p) tr)) = false.
Proof.
  intros Hp. destruct (mount_fields p) as [Hq _].
  assert (M : onTimelineControlled (props (mount item media_duration p)) = None /\
              existsb is_invoke (calls (mount item media_duration p)) = false).
  { split; [rewrite Hq; exact Hp|].
    rewrite mount_eq. destruct p as [a c sh o f cb cb'].
    unfold resetEffect, autoPlayEffect, initial, shouldPlay. crunch; reflexivity. }
  revert M. generalize (mount item media_duration p).
  induction tr as [|e tr IH]; intros s0 M; [exact M|].
  cbn [run fold_left]. apply IH.
  destruct M as [M1 M2]. destruct (handle_no_invoke s0 e M1 M2) as [N1 N2].
  unfold step. rewrite flush_callback, flush_calls. auto.
Qed.

(** X16: a row whose props carry no [onTimelineControlled] function never
    calls a scroll-lock callback, whatever happens to it; every start and
    end of a scrub on its rendered timeline throws instead. *)
Theorem no_scroll_lock_without_prop (p : Props) (tr : list Event) :
  onTimelineControlled p = None ->
  let s := run item SCREEN_WIDTH (mount item media_duration p) tr in
  existsb is_invoke (calls s) = false /\
  (gated item s = false ->
   thrown (step item SCREEN_WIDTH s TouchStart) =
     TypeError_not_a_function "onTimelineControlled" :: thrown s /\
   thrown (step item SCREEN_WIDTH s TouchEnd) =
     TypeError_not_a_function "onTimelineControlled" :: thrown s).
Proof.
  intros Hp s. destruct (run_no_invoke p tr Hp) as [I1 I2]. fold s in I1, I2.
  split; [exact I2|].
  intros Hg. unfold step. rewrite !flush_thrown. unfold handle. rewrite Hg. cbn [negb].
  unfold OnTimelineTouchStart, OnTimelineTouchEnd, call_onTimelineControlled. cbn.
  rewrite I1. split; reflexivity.
Qed.

End Facts.

Lemma controls_shown_have_timer_witness :
  let s := run plain_clip 400 (mount plain_clip 30 row_in_view) [PressScreen; PressScreen] in
  showControls s = true /\ exists t, timers s = [t].
Proof.
  destruct (controls_shown_have_timer plain_clip 30 400 row_in_view [PressScreen; PressScreen])
    as [_ [_ H]].
  split; [vm_compute; reflexivity|]. apply H. vm_compute. reflexivity.
Defined.

Lemma hook_mirrors_engine_witness :
  let tr := [PressScreen; PressPlayPause; SetScreenFocused false; TouchStart] in
  forallb (fun e => negb (is_TouchMove e)) tr = true /\
  in_sync (run plain_clip 400 (mount plain_clip 30 row_in_view) tr).
Proof.
  destruct (hook_mirrors_engine plain_clip 30 400 row_in_view
              [PressScreen; PressPlayPause; SetScreenFocused false; TouchStart] eq_refl)
    as [H _].
  split; [reflexivity|exact H].
Defined.

Lemma deactivation_effect_witness :
  let s := run plain_clip 400 (mount plain_clip 30 row_in_view)
             [PressScreen; PressPlayPause; PressPlayPause] in
  isActive (props s) = true /\ manualControlRef s = true /\ playSensitive s = false /\
  isPlaying s = true /\
  isPlaying (step plain_clip 400 s (SetActive false)) = isPlaying s.
Proof.
  destruct (deactivation_effect plain_clip 30 400 row_in_view
              [PressScreen; PressPlayPause; PressPlayPause]) as [_ [_ [_ [_ H]]]];
    [vm_compute; reflexivity|].
  split; [vm_compute; reflexivity|]. split; [vm_compute; reflexivity|].
  split; [vm_compute; reflexivity|]. split; [vm_compute; reflexivity|].
  apply H; vm_compute; reflexivity.
Defined.

Lemma activation_restarts_position_witness :
  let tr := [TouchStart; TouchMove 100; TouchEnd; SetActive false] in
  let s := run plain_clip 400 (mount plain_clip 30 row_in_view) tr in
  forallb (fun e => negb (is_PressPlayPause e)) tr = true /\
  isActive (props s) = false /\
  ~ (currentTime (player s) == 0)%Q /\
  currentTime (player (step plain_clip 400 s (SetActive true))) = 0%Q.
Proof.
  destruct (activation_restarts_position plain_clip 30 400 row_in_view
              [TouchStart; TouchMove 100; TouchEnd; SetActive false] eq_refl) as [H _].
  split; [reflexivity|]. split; [vm_compute; reflexivity|]. split.
  - vm_compute. discriminate.
  - apply H. vm_compute. reflexivity.
Defined.

Lemma double_tap_restores_witness :
  let s := mount plain_clip 30 row_in_view in
  gated plain_clip s = false /\ showDurationControl s = false /\
  isLiked (step plain_clip 400 (step plain_clip 400 s PressLike) PressLike) = isLiked s.
Proof.
  destruct (double_tap_restores plain_clip 30 400 row_in_view []) as [[H _] _];
    [vm_compute; reflexivity | vm_compute; reflexivity |].
  split; [vm_compute; reflexivity|]. split; [vm_compute; reflexivity|]. exact H.
Defined.

Lemma no_scroll_lock_without_prop_witness :
  onTimelineControlled row_in_view = None /\
  existsb is_invoke
    (calls (run plain_clip 400 (mount plain_clip 30 row_in_view)
              [TouchStart; TouchMove 10; TouchEnd])) = false.
Proof.
  destruct (no_scroll_lock_without_prop plain_clip 30 400 row_in_view
              [TouchStart; TouchMove 10; TouchEnd] eq_refl) as [H _].
  split; [reflexivity|exact H].
Defined.

(** *** Concrete runs *)

Lemma sensitive_gate_witness :
  is_sensitive sensitive_clip = true /\
  acknowledged false [SetActive true; PressWatchAnyways] = true /\
  playSensitive
    (step sensitive_clip 400
       (run sensitive_clip 400 (mount sensitive_clip 30 row_off_screen)
          [SetActive true; PressWatchAnyways])
       (SetActive false)) = false /\
  isPlaying
    (run sensitive_clip 400
       (run sensitive_clip 400 (mount sensitive_clip 30 row_off_screen)
          [SetActive true; PressWatchAnyways])
       (SetActive false :: [SetScreenFocused false; SetScreenFocused true] ++ [SetActive true]))
  = false.
Proof.
  destruct (sensitive_gate sensitive_clip 30 400 row_off_screen eq_refl) as [H1 [H2 H3]].
  split; [reflexivity|]. split; [|split].
  - apply (H1 [SetActive true; PressWatchAnyways]). left. vm_compute. reflexivity.
  - apply (H2 [SetActive true; PressWatchAnyways]). vm_compute. reflexivity.
  - apply (H3 [SetActive true; PressWatchAnyways] [SetScreenFocused false; SetScreenFocused true]).
    + vm_compute. reflexivity.
    + repeat constructor; discriminate.
Defined.

(** C1, counterexample: "watch anyways" pressed on the overlay of a row
    that is not the active one, then the row becomes active.  The item
    plays although no acknowledgement happened during this activation. *)
Lemma sensitive_gate_counterexample :
  let tr := [PressWatchAnyways; SetActive true] in
  let s := run sensitive_clip 400 (mount sensitive_clip 30 row_off_screen) tr in
  is_sensitive sensitive_clip = true /\
  isActive (props s) = true /\
  isPlaying s = true /\
  playing (player s) = true /\
  acknowledged_in_activation (isActive row_off_screen) tr = false.
Proof. vm_compute. repeat split; reflexivity. Qed.



(** C3, on the code: an active, focused item that plays and is not under
    manual control keeps playing when the comments, share or other-options
    modal opens for it; only the loss of focus pauses it. *)
Theorem modal_open_keeps_playing :
  let s := mount plain_clip 30 row_in_view in
  (isActive (props s) = true /\ isPlaying s = true /\ playing (player s) = true /\
   manualControlRef s = false) /\
  (isPlaying (step plain_clip 400 s (SetCommentsOpen true)) = true /\
   playing (player (step plain_clip 400 s (SetCommentsOpen true))) = true) /\
  (isPlaying (step plain_clip 400 s (SetShareOpen true)) = true /\
   playing (player (step plain_clip 400 s (SetShareOpen true))) = true) /\
  (isPlaying (step plain_clip 400 s (SetOtherOpen true)) = true /\
   playing (player (step plain_clip 400 s (SetOtherOpen true))) = true) /\
  (isPlaying (step plain_clip 400 s (SetScreenFocused false)) = false /\
   playing (player (step plain_clip 400 s (SetScreenFocused false))) = false).
Proof. vm_compute. repeat split; reflexivity. Qed.

Lemma optimistic_counters_witness :
  let s := mount plain_clip 30 row_in_view in
  likesText plain_clip s = likes plain_clip /\
  isLiked (step plain_clip 400 s PressLike) = negb (isLiked s) /\
  isBookmarked (step plain_clip 400 s PressBookmark) = negb (isBookmarked s) /\
  isLiked (step plain_clip 400 s PressBookmark) = isLiked s.
Proof.
  destruct (optimistic_counters plain_clip 400 (mount plain_clip 30 row_in_view))
    as [[_ [_ H1]] [_ [H3 [H4 [H5 _]]]]].
  split; [apply H1; reflexivity|]. split; [|split].
  - apply H3; vm_compute; reflexivity.
  - apply H4; vm_compute; reflexivity.
  - apply H5. discriminate.
Defined.

(** C7, counterexample: the viewer had liked the clip (10 likes) and taps
    the heart; the local flag goes off and the counter still reads 10, not
    9.  A second tap turns the flag on again and the counter reads 10. *)
Lemma optimistic_counters_counterexample :
  let s0 := mount plain_clip 30 row_in_view in
  let s1 := step plain_clip 400 s0 PressLike in
  let s2 := step plain_clip 400 s1 PressLike in
  has_liked plain_clip = true /\ likes plain_clip = 10 /\
  isLiked s1 = false /\ likesText plain_clip s1 = 10 /\
  likesText plain_clip s1 <> 10 - 1 /\
  isLiked s2 = true /\ likesText plain_clip s2 = 10.
Proof. vm_compute. repeat split; try reflexivity. discriminate. Qed.

(** A pending auto-hide timer, what unmounting does to it, and what its
    callback would do to the state if it were left pending. *)
Example pending_timer_cancelled :
  let s := run plain_clip 400 (mount plain_clip 30 row_in_view) [PressScreen; PressPlayPause] in
  timers s = [1%positive] /\
  timers (unmount s) = [] /\
  isMountedRef (unmount s) = true /\
  manualControlRef (fire plain_clip 400 s 1) = false /\
  fire plain_clip 400 (unmount s) 1 = unmount s.
Proof. vm_compute. repeat split; reflexivity. Qed.

End VideoPlayerFacts.
(* ================================================================== *)
(** ** Properties of the timeline scrub *)
(* ================================================================== *)

Module ScrubFacts.

Import VideoPlayer VideoPlayerFacts.

Section Scrub.

Variable item : Item.
Variable media_duration : Q.
Variable SCREEN_WIDTH : Q.



(** When the [onTimelineControlled] prop is a function, the start of a
    scrub calls it with [true] and the end with [false]. *)
Lemma scrub_signal (s : State) (f : Callback) :
  onTimelineControlled (props s) = Some f ->
  calls (OnTimelineTouchStart s) = invoke f true :: calls s /\
  thrown (OnTimelineTouchStart s) = thrown s /\
  calls (OnTimelineTouchEnd s) = invoke f false :: calls s /\
  thrown (OnTimelineTouchEnd s) = thrown s.
Proof.
  intros H. unfold OnTimelineTouchStart, OnTimelineTouchEnd, call_onTimelineControlled.
  cbn. rewrite H. repeat split; reflexivity.
Qed.



End Scrub.




End ScrubFacts.

(* ================================================================== *)
(** ** Properties of the feed screens *)
(* ================================================================== *)

Module FeedFacts.

Import Feed.

Lemma lowest_of_ascending (i : nat) (rest : list nat) :
  Forall (fun j => (i <= j)%nat) rest -> fold_right Nat.min i rest = i.
Proof.
  induction 1 as [|j rest Hj _ IH]; [reflexivity|].
  cbn. rewrite IH. lia.
Qed.

(** The pointer after a report is the index of the first reported row. *)
Lemma onViewableItemsChanged_first (s : LoopsFeed.State) (tok : ViewToken)
    (rest : list ViewToken) (now : Z) :
  LoopsFeed.currentIndex (LoopsFeed.onViewableItemsChanged (tok :: rest) now s) =
  index_or_0 tok.
Proof. reflexivity. Qed.

Lemma step_keeps_pointer (s : LoopsFeed.State) (e : LoopsFeed.Event) :
  LoopsFeed.writes_pointer e = false ->
  LoopsFeed.currentIndex (LoopsFeed.step s e) = LoopsFeed.currentIndex s.
Proof.
  destruct e as [items now|t| | |c|v|v|v| | | | | |now|en|o|vs n fn fe]; cbn [LoopsFeed.writes_pointer];
    intros H; try discriminate H; cbn [LoopsFeed.step].
  - destruct items; [reflexivity|discriminate H].
  - reflexivity.
  - unfold LoopsFeed.handleEndReached.
    destruct (LoopsFeed.hasNextPage s && negb (LoopsFeed.isFetchingNextPage s)); reflexivity.
  - destruct c as [i b|i b|[] b]; reflexivity.
  - reflexivity.
  - reflexivity.
  - reflexivity.
  - reflexivity.
  - reflexivity.
  - reflexivity.
  - reflexivity.
  - reflexivity.
  - unfold LoopsFeed.onBlur, LoopsFeed.recordWatch, LoopsFeed.recordVideoImpression.
    cbn.
    repeat match goal with
           | |- context [match ?x with _ => _ end] => destruct x; cbn
           end; reflexivity.
  - unfold LoopsFeed.forYouFallback.
    destruct (negb en && LoopsFeed.tab_eqb (LoopsFeed.activeTab s) LoopsFeed.forYou); reflexivity.
  - destruct (LoopsFeed.scrollEnabled s); reflexivity.
  - reflexivity.
Qed.

(** C5, as the code has it: on both feed screens, after a report of a
    non-empty list of visible rows the active-item pointer is the index of
    the first row of the list (0 when that index is null); this is the
    lowest reported index whenever the list is in ascending index order.
    On the main screen the only other writer of the pointer is a tab press,
    which sets it to 0: no other event changes it. *)
Theorem active_pointer_follows_first_row :
  (forall (s : LoopsFeed.State) (tok : ViewToken) (rest : list ViewToken) (now : Z),
      LoopsFeed.currentIndex
        (LoopsFeed.step s (LoopsFeed.ViewableItemsChanged (tok :: rest) now)) =
      index_or_0 tok) /\
  (forall (s : ProfileFeed.State) (tok : ViewToken) (rest : list ViewToken),
      ProfileFeed.currentIndex (ProfileFeed.onViewableItemsChanged (tok :: rest) s) =
      index_or_0 tok) /\
  (forall (tok : ViewToken) (rest : list ViewToken),
      ascending (map index_or_0 (tok :: rest)) ->
      index_or_0 tok = lowest_index (tok :: rest)) /\
  (forall (s : LoopsFeed.State) (t : LoopsFeed.Tab),
      LoopsFeed.currentIndex (LoopsFeed.step s (LoopsFeed.PressTab t)) = 0%nat) /\
  (forall (s : LoopsFeed.State) (e : LoopsFeed.Event),
      LoopsFeed.writes_pointer e = false ->
      LoopsFeed.currentIndex (LoopsFeed.step s e) = LoopsFeed.currentIndex s).
Proof.
  split; [|split; [|split; [|split]]].
  - intros. apply onViewableItemsChanged_first.
  - reflexivity.
  - intros tok rest [H _]. unfold lowest_index. cbn [map].
    symmetry. apply lowest_of_ascending, H.
  - reflexivity.
  - apply step_keeps_pointer.
Qed.

Lemma active_pointer_follows_first_row_witness :
  let rows := [mkViewToken (Some 3%nat); mkViewToken (Some 4%nat)] in
  ascending (map index_or_0 rows) /\
  index_or_0 (mkViewToken (Some 3%nat)) = lowest_index rows /\
  forall s : LoopsFeed.State,
    LoopsFeed.currentIndex (LoopsFeed.step s LoopsFeed.Refresh) = LoopsFeed.currentIndex s.
Proof.
  destruct active_pointer_follows_first_row as [_ [_ [H3 [_ H5]]]].
  assert (A : ascending (map index_or_0 [mkViewToken (Some 3%nat); mkViewToken (Some 4%nat)])).
  { cbn. repeat split; repeat constructor. }
  split; [exact A|]. split.
  - apply (H3 (mkViewToken (Some 3%nat)) [mkViewToken (Some 4%nat)]). exact A.
  - intros s. apply H5. reflexivity.
Defined.

(** C5, counterexample: a report that lists row 2 before row 1 sets the
    pointer to 2, while the lowest reported index is 1. *)
Lemma active_pointer_counterexample :
  let rows := [mkViewToken (Some 2%nat); mkViewToken (Some 1%nat)] in
  let s :=
    LoopsFeed.mkState LoopsFeed.local 0 None false false false true false None None 0
      [] false false false [] in
  LoopsFeed.currentIndex (LoopsFeed.step s (LoopsFeed.ViewableItemsChanged rows 1000)) = 2%nat /\
  ProfileFeed.currentIndex
    (ProfileFeed.onViewableItemsChanged rows
       (ProfileFeed.mkState 0 None false false false true false)) = 2%nat /\
  lowest_index rows = 1%nat.
Proof. repeat split; reflexivity. Qed.

Lemma onRefresh_effect (s : LoopsFeed.State) :
  LoopsFeed.scrollOffset (LoopsFeed.onRefresh s) = 0 /\
  LoopsFeed.currentIndex (LoopsFeed.onRefresh s) = LoopsFeed.currentIndex s /\
  LoopsFeed.requests (LoopsFeed.onRefresh s) =
  refetch :: scrollToOffset 0 :: LoopsFeed.requests s.
Proof. repeat split; reflexivity. Qed.

Lemma refetches_iter (n : nat) (s : LoopsFeed.State) :
  LoopsFeed.refetches (Nat.iter n LoopsFeed.onRefresh s) = (n + LoopsFeed.refetches s)%nat.
Proof.
  induction n as [|n IH]; [reflexivity|].
  change (Nat.iter (S n) LoopsFeed.onRefresh s)
    with (LoopsFeed.onRefresh (Nat.iter n LoopsFeed.onRefresh s)).
  unfold LoopsFeed.refetches in *.
  destruct (onRefresh_effect (Nat.iter n LoopsFeed.onRefresh s)) as [_ [_ R]].
  rewrite R. cbn [filter is_refetch List.length]. rewrite IH. reflexivity.
Qed.

(** C6, as the code has it: whatever the scroll position and the pointer
    were, refresh puts the scroll position at the top, leaves the
    active-item pointer as it was (it stays 0 when it was 0), and hands one
    refetch call to the query layer; [n] invocations hand over [n] refetch
    calls whether or not a fetch is pending, the screen itself collapsing
    none of them.  Loading the next page, by contrast, is skipped while a
    next-page fetch is pending. *)
Theorem refresh_scrolls_to_top_and_refetches (s : LoopsFeed.State) (n : nat) :
  LoopsFeed.scrollOffset (LoopsFeed.step s LoopsFeed.Refresh) = 0 /\
  LoopsFeed.currentIndex (LoopsFeed.step s LoopsFeed.Refresh) = LoopsFeed.currentIndex s /\
  LoopsFeed.requests (LoopsFeed.step s LoopsFeed.Refresh) =
    refetch :: scrollToOffset 0 :: LoopsFeed.requests s /\
  LoopsFeed.refetches (Nat.iter n LoopsFeed.onRefresh s) = (n + LoopsFeed.refetches s)%nat /\
  LoopsFeed.isFetching (Nat.iter n LoopsFeed.onRefresh s) = LoopsFeed.isFetching s /\
  (LoopsFeed.isFetchingNextPage s = true ->
   LoopsFeed.step s LoopsFeed.EndReached = s).
Proof.
  split; [reflexivity|]. split; [reflexivity|]. split; [reflexivity|].
  split; [apply refetches_iter|]. split.
  - induction n as [|n IH]; [reflexivity|].
    change (Nat.iter (S n) LoopsFeed.onRefresh s)
      with (LoopsFeed.onRefresh (Nat.iter n LoopsFeed.onRefresh s)).
    exact IH.
  - intros H. cbn. unfold LoopsFeed.handleEndReached. rewrite H.
    rewrite andb_false_r. reflexivity.
Qed.

Lemma refresh_scrolls_to_top_and_refetches_witness :
  LoopsFeed.isFetchingNextPage LoopsFeed.scrolled_feed = true /\
  LoopsFeed.step LoopsFeed.scrolled_feed LoopsFeed.EndReached = LoopsFeed.scrolled_feed /\
  LoopsFeed.scrollOffset (LoopsFeed.step LoopsFeed.scrolled_feed LoopsFeed.Refresh) = 0.
Proof.
  destruct (refresh_scrolls_to_top_and_refetches LoopsFeed.scrolled_feed 2) as [H1 [_ [_ [_ [_ H6]]]]].
  split; [reflexivity|]. split; [apply H6; reflexivity|exact H1].
Defined.

(** C6, counterexample: with the pointer at row 3 and a fetch pending,
    refresh leaves the pointer at 3, and a second refresh hands a second
    refetch call to the query layer. *)
Lemma refresh_counterexample :
  LoopsFeed.currentIndex LoopsFeed.scrolled_feed = 3%nat /\
  LoopsFeed.isFetching LoopsFeed.scrolled_feed = true /\
  LoopsFeed.currentIndex (LoopsFeed.step LoopsFeed.scrolled_feed LoopsFeed.Refresh) = 3%nat /\
  LoopsFeed.currentIndex (LoopsFeed.step LoopsFeed.scrolled_feed LoopsFeed.Refresh) <> 0%nat /\
  LoopsFeed.requests
    (LoopsFeed.run LoopsFeed.scrolled_feed [LoopsFeed.Refresh; LoopsFeed.Refresh]) =
  [refetch; scrollToOffset 0; refetch; scrollToOffset 0].
Proof. repeat split; try reflexivity. discriminate. Qed.

End FeedFacts.

(* ================================================================== *)
(** ** Further properties of the formatting utilities *)
(* ================================================================== *)

Module TextFacts.

Import Utils.

Lemma suffix_or_empty_id (suffix : list CodePoint) : suffix_or_empty suffix = suffix.
Proof. destruct suffix; reflexivity. Qed.

Lemma Qle_floor (k : Z) (l : Q) : (inject_Z k <= l)%Q <-> k <= Qfloor l.
Proof.
  split; intros H.
  - apply Qfloor_resp_le in H. rewrite Qfloor_Z in H. exact H.
  - apply Qle_trans with (inject_Z (Qfloor l)); [|apply Qfloor_le].
    rewrite <- Zle_Qle. exact H.
Qed.






(** X2: when the limit is not finite (an infinity included) or is not
    positive, a string argument yields the suffix alone, whatever the text,
    even an empty or short one; an argument that is not a string yields
    the empty string. *)
Theorem truncate_degenerate_limit (t : list CodePoint) (sfx : option (list CodePoint)) :
  let suffix := match sfx with Some x => x | None => ellipsis end in
  truncate (Str t) NaN sfx = suffix /\
  (forall negative, truncate (Str t) (Infinity negative) sfx = suffix) /\
  (forall l : Q, (l <= 0)%Q -> truncate (Str t) (Num l) sfx = suffix) /\
  (forall limit, truncate NotString limit sfx = []).
Proof.
  intros suffix. unfold truncate. fold suffix. rewrite suffix_or_empty_id.
  split; [reflexivity|]. split; [reflexivity|]. split; [|reflexivity].
  intros l Hl. apply Qle_bool_iff in Hl. rewrite Hl. reflexivity.
Qed.

Lemma truncate_degenerate_limit_witness :
  (0 <= 0)%Q /\ truncate (Str []) (Num 0) None = ellipsis.
Proof.
  destruct (truncate_degenerate_limit [] None) as [_ [_ [H _]]].
  split; [vm_compute; discriminate|]. apply H. vm_compute. discriminate.
Defined.


(** *** Minutes and seconds *)

Lemma Qfloor_div_60 (t : Q) : Qfloor (t / 60) = Qfloor t / 60.
Proof.
  destruct t as [n d]. unfold Qfloor, Qdiv, Qmult, Qinv. cbn.
  rewrite Z.mul_1_r. rewrite Pos2Z.inj_mul. rewrite Z.div_div by lia. reflexivity.
Qed.

Lemma Qfloor_minus_Z (t : Q) (k : Z) : Qfloor (t - inject_Z k * 60) = Qfloor t - k * 60.
Proof.
  assert (E : (t - inject_Z k * 60 == t + inject_Z (- (k * 60)))%Q).
  { rewrite inject_Z_opp, inject_Z_mult. unfold Qminus. reflexivity. }
  rewrite (Qfloor_comp _ _ E).
  destruct t as [n d]. unfold Qfloor, Qplus, inject_Z. cbn.
  rewrite Z.mul_1_r, Pos.mul_1_r. rewrite Z.div_add by lia. lia.
Qed.

(** X4: for every finite number of seconds, the minutes printed are
    [floor(t) / 60], rounded down, and the seconds printed are
    [floor(t) mod 60]: the seconds field is always in 0..59 and minutes and
    seconds add up to the whole seconds of the input. *)
Theorem minutes_and_seconds (t : Q) :
  minutes_of t = Qfloor t / 60 /\
  seconds_of t = Qfloor t mod 60 /\
  0 <= seconds_of t < 60 /\
  minutes_of t * 60 + seconds_of t = Qfloor t.
Proof.
  assert (M : minutes_of t = Qfloor t / 60) by apply Qfloor_div_60.
  assert (S0 : seconds_of t = Qfloor t mod 60).
  { unfold seconds_of, Math_floor. rewrite Qfloor_minus_Z, M.
    rewrite Z.mod_eq by lia. lia. }
  split; [exact M|]. split; [exact S0|]. rewrite S0, M.
  pose proof (Z.mod_pos_bound (Qfloor t) 60 ltac:(lia)).
  pose proof (Z.div_mod (Qfloor t) 60 ltac:(lia)). lia.
Qed.

Lemma strPadLeft_two_digits (v : Z) :
  0 <= v < 100 -> strPadLeft v = two_digits v.
Proof.
  intros H.
  assert (A : forallb (fun n => String.eqb (strPadLeft (Z.of_nat n)) (two_digits (Z.of_nat n)))
                (seq 0 100) = true) by (vm_compute; reflexivity).
  rewrite forallb_forall in A.
  specialize (A (Z.to_nat v)). rewrite Z2Nat.id in A by lia.
  apply String.eqb_eq, A. apply in_seq. lia.
Qed.

(** X5: for an input from 0 up to, not including, 6000 seconds the result
    is exactly five characters: two digits of minutes, a colon, two digits
    of seconds. *)
Theorem convertSecondsToTimeString_format (t : Q) :
  (0 <= t)%Q -> (t < 6000)%Q ->
  convertSecondsToTimeString t =
  (two_digits (Qfloor t / 60) ++ ":" ++ two_digits (Qfloor t mod 60))%string /\
  String.length (convertSecondsToTimeString t) = 5%nat.
Proof.
  intros H0 H1.
  destruct (minutes_and_seconds t) as [M [S0 [B _]]].
  assert (F0 : 0 <= Qfloor t) by (apply Qle_floor; exact H0).
  assert (F1 : Qfloor t < 6000).
  { apply Z.lt_nge. intros C. apply (Qle_floor 6000 t) in C.
    exact (Qlt_not_le _ _ H1 C). }
  assert (E : convertSecondsToTimeString t =
              (two_digits (Qfloor t / 60) ++ ":" ++ two_digits (Qfloor t mod 60))%string).
  { unfold convertSecondsToTimeString. rewrite M, S0.
    rewrite !strPadLeft_two_digits; [reflexivity| |].
    - pose proof (Z.mod_pos_bound (Qfloor t) 60 ltac:(lia)). lia.
    - split; [apply Z.div_pos; lia|]. apply Z.div_lt_upper_bound; lia. }
  split; [exact E|]. rewrite E. reflexivity.
Qed.

Lemma convertSecondsToTimeString_format_witness :
  (0 <= 90)%Q /\ (90 < 6000)%Q /\ convertSecondsToTimeString 90 = "01:30"%string.
Proof.
  destruct (convertSecondsToTimeString_format 90) as [H _];
    [vm_compute; discriminate | vm_compute; reflexivity |].
  split; [vm_compute; discriminate|]. split; [vm_compute; reflexivity|].
  rewrite H. vm_compute. reflexivity.
Defined.

End TextFacts.

Module DateFacts.

Import Utils.

Ltac Zify.zify_post_hook ::= Z.to_euclidean_division_equations.

Lemma yoe_bound (doe : Z) :
  0 <= doe <= 146096 ->
  0 <= (doe - doe / 1460 + doe / 36524 - doe / 146096) / 365 <= 399.
Proof. intros H. lia. Qed.

Lemma doy_bound (doe : Z) :
  0 <= doe <= 146096 ->
  0 <= doe - (365 * ((doe - doe / 1460 + doe / 36524 - doe / 146096) / 365)
              + (doe - doe / 1460 + doe / 36524 - doe / 146096) / 365 / 4
              - (doe - doe / 1460 + doe / 36524 - doe / 146096) / 365 / 100) <= 365.
Proof. intros H. lia. Qed.

(** The calendar fields of a day number determine it. *)
Lemma civil_round_trip (z : Z) :
  days_from_civil (fst (fst (civil_from_days z)))
    (snd (fst (civil_from_days z)) + 1) (snd (civil_from_days z)) = z.
Proof.
  unfold civil_from_days, days_from_civil. cbn [fst snd].
  set (zz := z + 719468).
  set (era := zz / 146097).
  set (doe := zz - era * 146097).
  assert (Hdoe : 0 <= doe <= 146096) by (subst doe era; lia).
  pose proof (yoe_bound doe Hdoe) as Hy.
  pose proof (doy_bound doe Hdoe) as Hd.
  set (yoe := (doe - doe / 1460 + doe / 36524 - doe / 146096) / 365) in *.
  set (doy := doe - (365 * yoe + yoe / 4 - yoe / 100)) in *.
  set (mp := (5 * doy + 2) / 153).
  assert (Hmp : 0 <= mp <= 11) by (subst mp; lia).
  destruct (mp <? 10) eqn:E.
  - apply Z.ltb_lt in E.
    replace (mp + 3 <=? 2) with false by (symmetry; apply Z.leb_gt; lia).
    replace (mp + 3 - 1 + 1 <=? 2) with false by (symmetry; apply Z.leb_gt; lia).
    replace (2 <? mp + 3 - 1 + 1) with true by (symmetry; apply Z.ltb_lt; lia).
    replace ((yoe + era * 400) / 400) with era by lia.
    replace (mp + 3 - 1 + 1 - 3) with mp by lia.
    subst doy doe zz. lia.
  - apply Z.ltb_ge in E.
    replace (mp - 9 <=? 2) with true by (symmetry; apply Z.leb_le; lia).
    replace (mp - 9 - 1 + 1 <=? 2) with true by (symmetry; apply Z.leb_le; lia).
    replace (2 <? mp - 9 - 1 + 1) with false by (symmetry; apply Z.ltb_ge; lia).
    replace ((yoe + era * 400 + 1 - 1) / 400) with era by lia.
    replace (mp - 9 - 1 + 1 + 9) with mp by lia.
    subst doy doe zz. lia.
Qed.

Lemma civil_injective (a b : Z) :
  civil_from_days a = civil_from_days b -> a = b.
Proof.
  intros H. rewrite <- (civil_round_trip a), <- (civil_round_trip b), H. reflexivity.
Qed.

Lemma fields_to_day (tz x : Z) :
  days_from_civil (getFullYear tz x) (getMonth tz x + 1) (getDate tz x) = local_days tz x.
Proof. unfold getFullYear, getMonth, getDate. apply civil_round_trip. Qed.

Lemma startOfDay_eq (tz x : Z) :
  plain_year tz x ->
  startOfDay tz x = local_days tz x * 86400000 - tz * 60000 /\
  endOfDay tz x = local_days tz x * 86400000 + 86399999 - tz * 60000.
Proof.
  intros H. unfold startOfDay, endOfDay, Date_local.
  assert (E : (0 <=? getFullYear tz x) && (getFullYear tz x <=? 99) = false).
  { unfold plain_year in H. apply andb_false_iff.
    destruct H as [H|H]; [left; apply Z.leb_gt|right; apply Z.leb_gt]; exact H. }
  rewrite E, fields_to_day. split; lia.
Qed.

Lemma local_days_in_day (tz x k : Z) :
  0 <= k < 86400000 ->
  local_days tz (local_days tz x * 86400000 + k - tz * 60000) = local_days tz x.
Proof. intros H. unfold local_days. lia. Qed.

Lemma same_fields (tz a b : Z) :
  local_days tz a = local_days tz b ->
  getFullYear tz a = getFullYear tz b /\
  getMonth tz a = getMonth tz b /\
  getDate tz a = getDate tz b.
Proof. unfold getFullYear, getMonth, getDate. intros ->. auto. Qed.

Lemma isSameDay_local_days (tz a b : Z) :
  isSameDay tz a b = true <-> local_days tz a = local_days tz b.
Proof.
  split.
  - unfold isSameDay. intros H.
    apply andb_prop in H. destruct H as [H Hd].
    apply andb_prop in H. destruct H as [Hy Hm].
    apply Z.eqb_eq in Hy, Hm, Hd.
    rewrite <- (fields_to_day tz a), <- (fields_to_day tz b), Hy, Hm, Hd. reflexivity.
  - intros H. destruct (same_fields tz a b H) as [Hy [Hm Hd]].
    unfold isSameDay. rewrite Hy, Hm, Hd, !Z.eqb_refl. reflexivity.
Qed.

(** X6: for a timestamp whose local year is not one of 0..99, the start of
    its day is at or before it, the end of its day at or after it, less
    than a day apart: the end is the start plus 86 399 999 ms. *)
Theorem day_boundaries_enclose (tz x : Z) :
  plain_year tz x ->
  startOfDay tz x <= x /\ x <= endOfDay tz x /\
  endOfDay tz x = startOfDay tz x + 86399999.
Proof.
  intros H. destruct (startOfDay_eq tz x H) as [S0 E]. rewrite S0, E.
  unfold local_days. lia.
Qed.

Lemma day_boundaries_enclose_witness :
  plain_year 60 1700000000000 /\
  startOfDay 60 1700000000000 <= 1700000000000 /\
  1700000000000 <= endOfDay 60 1700000000000.
Proof.
  assert (P : plain_year 60 1700000000000) by (right; vm_compute; reflexivity).
  destruct (day_boundaries_enclose 60 1700000000000 P) as [H1 [H2 _]].
  split; [exact P|]. split; assumption.
Defined.

(** X7: two timestamps are the same day exactly when they fall in the same
    24-hour window of local time; so [isSameDay] is reflexive, symmetric
    and transitive, and timestamps of the same day have the same ISO
    date. *)
Theorem isSameDay_is_same_local_day (tz a b c : Z) :
  (isSameDay tz a b = true <-> local_days tz a = local_days tz b) /\
  isSameDay tz a a = true /\
  isSameDay tz a b = isSameDay tz b a /\
  (isSameDay tz a b = true -> isSameDay tz b c = true -> isSameDay tz a c = true) /\
  (isSameDay tz a b = true -> toISODate tz a = toISODate tz b).
Proof.
  split; [apply isSameDay_local_days|]. split; [|split; [|split]].
  - apply isSameDay_local_days. reflexivity.
  - unfold isSameDay.
    rewrite (Z.eqb_sym (getFullYear tz a)), (Z.eqb_sym (getMonth tz a)),
      (Z.eqb_sym (getDate tz a)). reflexivity.
  - intros H1 H2. apply isSameDay_local_days in H1, H2.
    apply isSameDay_local_days. congruence.
  - intros H. apply isSameDay_local_days in H.
    destruct (same_fields tz a b H) as [Hy [Hm Hd]].
    unfold toISODate. rewrite Hy, Hm, Hd. reflexivity.
Qed.

Lemma isSameDay_is_same_local_day_witness :
  isSameDay 0 1700000000000 1700000900000 = true /\
  toISODate 0 1700000000000 = toISODate 0 1700000900000.
Proof.
  destruct (isSameDay_is_same_local_day 0 1700000000000 1700000900000 0) as [_ [_ [_ [_ H]]]].
  split; [vm_compute; reflexivity|]. apply H. vm_compute. reflexivity.
Defined.

(** X8: for a timestamp whose local year is not one of 0..99, the start
    and the end of its day are on the same day as the timestamp, and taking
    the start (or the end) of the day again changes nothing. *)
Theorem day_boundaries_stay_in_day (tz x : Z) :
  plain_year tz x ->
  isSameDay tz x (startOfDay tz x) = true /\
  isSameDay tz x (endOfDay tz x) = true /\
  startOfDay tz (startOfDay tz x) = startOfDay tz x /\
  startOfDay tz (endOfDay tz x) = startOfDay tz x /\
  endOfDay tz (startOfDay tz x) = endOfDay tz x /\
  endOfDay tz (endOfDay tz x) = endOfDay tz x.
Proof.
  intros H. destruct (startOfDay_eq tz x H) as [S0 E].
  assert (LS : local_days tz (startOfDay tz x) = local_days tz x).
  { rewrite S0. replace (local_days tz x * 86400000 - tz * 60000)
      with (local_days tz x * 86400000 + 0 - tz * 60000) by lia.
    apply local_days_in_day. lia. }
  assert (LE : local_days tz (endOfDay tz x) = local_days tz x).
  { rewrite E. apply local_days_in_day. lia. }
  assert (PS : plain_year tz (startOfDay tz x)).
  { unfold plain_year in *. destruct (same_fields _ _ _ LS) as [Y _]. rewrite Y. exact H. }
  assert (PE : plain_year tz (endOfDay tz x)).
  { unfold plain_year in *. destruct (same_fields _ _ _ LE) as [Y _]. rewrite Y. exact H. }
  destruct (startOfDay_eq _ _ PS) as [SS ES].
  destruct (startOfDay_eq _ _ PE) as [SE EE].
  split; [apply isSameDay_local_days; symmetry; exact LS|].
  split; [apply isSameDay_local_days; symmetry; exact LE|].
  rewrite SS, ES, SE, EE, LS, LE, S0, E. auto.
Qed.

Lemma day_boundaries_stay_in_day_witness :
  plain_year (-300) 1700000000000 /\
  startOfDay (-300) (endOfDay (-300) 1700000000000) = startOfDay (-300) 1700000000000.
Proof.
  assert (P : plain_year (-300) 1700000000000) by (right; vm_compute; reflexivity).
  destruct (day_boundaries_stay_in_day (-300) 1700000000000 P) as [_ [_ [_ [H _]]]].
  split; [exact P|exact H].
Defined.

(** Nineteen hundred years are more than 693 000 days. *)
Lemma days_from_civil_1900 (y m d : Z) :
  days_from_civil y m d + 693000 <= days_from_civil (1900 + y) m d.
Proof.
  unfold days_from_civil. destruct (m <=? 2); lia.
Qed.

(** X9: for a timestamp whose local year is one of 0..99, the constructor
    reads the year as 1900 + year: the start and the end of the day come
    out more than 693 000 days after the timestamp instead of enclosing
    it. *)
Theorem day_boundaries_two_digit_year (tz x : Z) :
  0 <= getFullYear tz x <= 99 ->
  startOfDay tz x =
    days_from_civil (1900 + getFullYear tz x) (getMonth tz x + 1) (getDate tz x) * 86400000
    - tz * 60000 /\
  x + 693000 * 86400000 - 86400000 < startOfDay tz x /\
  startOfDay tz x < endOfDay tz x.
Proof.
  intros H. unfold startOfDay, endOfDay, Date_local.
  assert (E : (0 <=? getFullYear tz x) && (getFullYear tz x <=? 99) = true).
  { apply andb_true_iff. split; apply Z.leb_le; lia. }
  rewrite E.
  pose proof (days_from_civil_1900 (getFullYear tz x) (getMonth tz x + 1) (getDate tz x)) as D.
  rewrite fields_to_day in D. unfold local_days in D.
  split; [lia|]. split; lia.
Qed.

Lemma day_boundaries_two_digit_year_witness :
  0 <= getFullYear 0 (-60000000000000) <= 99 /\
  -60000000000000 < startOfDay 0 (-60000000000000).
Proof.
  assert (P : 0 <= getFullYear 0 (-60000000000000) <= 99) by (vm_compute; split; discriminate).
  destruct (day_boundaries_two_digit_year 0 (-60000000000000) P) as [_ [H _]].
  split; [exact P|]. lia.
Defined.

(** X10: the buckets of [timeAgo] in milliseconds elapsed between the input
    and the reference: below 5 s "now"; from 5 s to below a minute the
    whole seconds (5..59) with "s"; from a minute to below an hour the
    whole minutes (1..59) with "m"; from an hour to below 24 hours the whole
    hours (1..23) with "h". *)
Theorem timeAgo_buckets (tz clock input : Z) (now : option Z) :
  let diff := reference_time clock now - input in
  (diff < 5000 -> timeAgo tz clock input now = "now"%string) /\
  (5000 <= diff < 60000 ->
   timeAgo tz clock input now = (itoa (diff / 1000) ++ "s")%string /\
   5 <= diff / 1000 <= 59) /\
  (60000 <= diff < 3600000 ->
   timeAgo tz clock input now = (itoa (diff / 60000) ++ "m")%string /\
   1 <= diff / 60000 <= 59) /\
  (3600000 <= diff < 86400000 ->
   timeAgo tz clock input now = (itoa (diff / 3600000) ++ "h")%string /\
   1 <= diff / 3600000 <= 23).
Proof.
  intros diff. unfold timeAgo, elapsed_seconds. fold diff.
  split; [|split; [|split]]; intros H.
  - replace (Z.max 0 (diff / 1000) / 3600 <? 24) with true
      by (symmetry; apply Z.ltb_lt; lia).
    replace (Z.max 0 (diff / 1000) <? 5) with true
      by (symmetry; apply Z.ltb_lt; lia).
    reflexivity.
  - replace (Z.max 0 (diff / 1000)) with (diff / 1000) by lia.
    replace (diff / 1000 / 3600 <? 24) with true by (symmetry; apply Z.ltb_lt; lia).
    replace (diff / 1000 <? 5) with false by (symmetry; apply Z.ltb_ge; lia).
    replace (diff / 1000 <? 60) with true by (symmetry; apply Z.ltb_lt; lia).
    split; [reflexivity|lia].
  - replace (Z.max 0 (diff / 1000)) with (diff / 1000) by lia.
    replace (diff / 1000 / 3600 <? 24) with true by (symmetry; apply Z.ltb_lt; lia).
    replace (diff / 1000 <? 5) with false by (symmetry; apply Z.ltb_ge; lia).
    replace (diff / 1000 <? 60) with false by (symmetry; apply Z.ltb_ge; lia).
    replace (diff / 1000 / 60) with (diff / 60000) by lia.
    replace (diff / 60000 <? 60) with true by (symmetry; apply Z.ltb_lt; lia).
    split; [reflexivity|lia].
  - replace (Z.max 0 (diff / 1000)) with (diff / 1000) by lia.
    replace (diff / 1000 / 3600) with (diff / 3600000) by lia.
    replace (diff / 3600000 <? 24) with true by (symmetry; apply Z.ltb_lt; lia).
    replace (diff / 1000 <? 5) with false by (symmetry; apply Z.ltb_ge; lia).
    replace (diff / 1000 <? 60) with false by (symmetry; apply Z.ltb_ge; lia).
    replace (diff / 1000 / 60 <? 60) with false by (symmetry; apply Z.ltb_ge; lia).
    split; [reflexivity|lia].
Qed.

Lemma timeAgo_buckets_witness :
  60000 <= reference_time 0 (Some 1700000090000) - 1700000000000 < 3600000 /\
  timeAgo 0 0 1700000000000 (Some 1700000090000) = "1m"%string.
Proof.
  destruct (timeAgo_buckets 0 0 1700000000000 (Some 1700000090000)) as [_ [_ [H _]]].
  assert (B : 60000 <= reference_time 0 (Some 1700000090000) - 1700000000000 < 3600000)
    by (unfold reference_time; cbn; lia).
  split; [exact B|]. destruct (H B) as [E _]. rewrite E. vm_compute. reflexivity.
Defined.

End DateFacts.

(* ================================================================== *)
(** ** Further properties of the feed screens *)
(* ================================================================== *)

Module FeedMoreFacts.

Import Feed.

(** *** Watch impressions *)








(** *** The end-of-feed row *)

Lemma no_marker_among_videos (vs : list Video) : ~ In EndMarker (map VideoRow vs).
Proof.
  induction vs as [|v vs IH]; cbn; [tauto|]. intros [H|H]; [discriminate|auto].
Qed.

(** X19: the end-of-feed row is in the list exactly when the personalized
    tab is selected, there is no further page and no video is loaded, and
    then it is the only row; otherwise the rows are the loaded videos, in
    order. *)
Theorem end_marker_only_row (s : LoopsFeed.State) :
  (In EndMarker (LoopsFeed.videosWithEnd s) <->
   LoopsFeed.activeTab s = LoopsFeed.forYou /\ LoopsFeed.hasNextPage s = false /\
   LoopsFeed.videos s = []) /\
  (In EndMarker (LoopsFeed.videosWithEnd s) -> LoopsFeed.videosWithEnd s = [EndMarker]) /\
  (~ In EndMarker (LoopsFeed.videosWithEnd s) ->
   LoopsFeed.videosWithEnd s = map VideoRow (LoopsFeed.videos s)).
Proof.
  unfold LoopsFeed.videosWithEnd.
  destruct (LoopsFeed.activeTab s) eqn:T; cbn [LoopsFeed.tab_eqb andb];
    try (split; [split; [intros H; destruct (no_marker_among_videos _ H)
                        |intros [C _]; discriminate C]
                |split; [intros H; destruct (no_marker_among_videos _ H)|reflexivity]]).
  destruct (LoopsFeed.hasNextPage s) eqn:N; cbn [negb andb];
    try (split; [split; [intros H; destruct (no_marker_among_videos _ H)
                        |intros [_ [C _]]; discriminate C]
                |split; [intros H; destruct (no_marker_among_videos _ H)|reflexivity]]).
  destruct (LoopsFeed.videos s) as [|v vs] eqn:V; cbn.
  - split; [split; auto|]. split; [reflexivity|]. intros H. exfalso. apply H. now left.
  - split; [split; [intros [H|H]; [discriminate|destruct (no_marker_among_videos _ H)]
                   |intros [_ [_ C]]; discriminate C]|].
    split; [intros [H|H]; [discriminate|destruct (no_marker_among_videos _ H)]|reflexivity].
Qed.

Lemma end_marker_only_row_witness :
  let s := LoopsFeed.mkState LoopsFeed.forYou 0 None false false false true false
             None None 0 [] false false false [] in
  In EndMarker (LoopsFeed.videosWithEnd s) /\ LoopsFeed.videosWithEnd s = [EndMarker].
Proof.
  set (s := LoopsFeed.mkState LoopsFeed.forYou 0 None false false false true false
              None None 0 [] false false false []).
  assert (H : In EndMarker (LoopsFeed.videosWithEnd s)) by (left; reflexivity).
  split; [exact H|]. apply (proj1 (proj2 (end_marker_only_row s))). exact H.
Defined.

(** *** Playback rates *)

(** X20: after a speed is chosen for the selected video, that video plays
    at the chosen speed, unless the speed is 0, which reads back as 1;
    every other video keeps its rate; with no video selected nothing
    changes; and a video with no entry plays at rate 1. *)
Theorem playback_rate_of_selected (rates : Rates) (i : Z) (speed : Q) :
  (~ (speed == 0)%Q ->
   playbackRate (handlePlaybackSpeedChange (Some i) speed rates) i = speed /\
   currentPlaybackRate (Some i) (handlePlaybackSpeedChange (Some i) speed rates) = speed) /\
  ((speed == 0)%Q ->
   playbackRate (handlePlaybackSpeedChange (Some i) speed rates) i = 1%Q) /\
  (forall j, j <> i ->
        playbackRate (handlePlaybackSpeedChange (Some i) speed rates) j = playbackRate rates j) /\
  handlePlaybackSpeedChange None speed rates = rates /\
  playbackRate [] i = 1%Q.
Proof.
  unfold currentPlaybackRate, playbackRate, handlePlaybackSpeedChange. cbn [lookup].
  rewrite Z.eqb_refl.
  split; [|split; [|split; [|split; reflexivity]]].
  - intros H. destruct (Qeq_bool speed 0) eqn:E; [|split; reflexivity].
    apply Qeq_bool_iff in E. contradiction.
  - intros H. apply Qeq_bool_iff in H. rewrite H. reflexivity.
  - intros j Hj. apply Z.eqb_neq in Hj. rewrite Hj. reflexivity.
Qed.

Lemma playback_rate_of_selected_witness :
  ~ (3 # 2 == 0)%Q /\
  playbackRate (handlePlaybackSpeedChange (Some 8) (3 # 2) [(8, 2%Q); (9, 1 # 2)]) 8 = (3 # 2)%Q /\
  playbackRate (handlePlaybackSpeedChange (Some 8) (3 # 2) [(8, 2%Q); (9, 1 # 2)]) 9 = (1 # 2)%Q.
Proof.
  destruct (playback_rate_of_selected [(8, 2%Q); (9, 1 # 2)] 8 (3 # 2)) as [H1 [_ [H3 _]]].
  assert (N : ~ (3 # 2 == 0)%Q) by (vm_compute; discriminate).
  split; [exact N|]. split.
  - apply (proj1 (H1 N)).
  - rewrite (H3 9); [reflexivity|discriminate].
Defined.

(** *** The active row and the modal props *)

(** X21: on both feed screens at most one row index is rendered as the
    active one, and after a report of visible rows it is the index of the
    first reported row (0 when that index is null). *)
Theorem one_active_row :
  (forall (s : LoopsFeed.State) (v w : Video) (i j : nat),
      VideoPlayer.isActive (LoopsFeed.renderItem s v i) = true ->
      VideoPlayer.isActive (LoopsFeed.renderItem s w j) = true -> i = j) /\
  (forall (s : ProfileFeed.State) (v w : Video) (i j : nat),
      VideoPlayer.isActive (ProfileFeed.renderItem s v i) = true ->
      VideoPlayer.isActive (ProfileFeed.renderItem s w j) = true -> i = j) /\
  (forall (s : LoopsFeed.State) (tok : ViewToken) (rest : list ViewToken) (now : Z)
          (v : Video) (i : nat),
      VideoPlayer.isActive
        (LoopsFeed.renderItem
           (LoopsFeed.step s (LoopsFeed.ViewableItemsChanged (tok :: rest) now)) v i) =
      (i =? index_or_0 tok)%nat) /\
  (forall (s : ProfileFeed.State) (tok : ViewToken) (rest : list ViewToken)
          (v : Video) (i : nat),
      VideoPlayer.isActive
        (ProfileFeed.renderItem (ProfileFeed.onViewableItemsChanged (tok :: rest) s) v i) =
      (i =? index_or_0 tok)%nat).
Proof.
  split; [|split; [|split]].
  - intros s v w i j Hi Hj. cbn in Hi, Hj.
    apply Nat.eqb_eq in Hi, Hj. congruence.
  - intros s v w i j Hi Hj. cbn in Hi, Hj.
    apply Nat.eqb_eq in Hi, Hj. congruence.
  - reflexivity.
  - reflexivity.
Qed.

Lemma one_active_row_witness :
  let s := LoopsFeed.scrolled_feed in
  let clip := mkVideo 8 VideoPlayer.plain_clip 10 in
  VideoPlayer.isActive (LoopsFeed.renderItem s clip 3) = true /\
  forall j, VideoPlayer.isActive (LoopsFeed.renderItem s clip j) = true -> 3%nat = j.
Proof.
  destruct one_active_row as [H _].
  split; [reflexivity|]. intros j Hj.
  apply (H LoopsFeed.scrolled_feed (mkVideo 8 VideoPlayer.plain_clip 10)
           (mkVideo 8 VideoPlayer.plain_clip 10) 3%nat j); [reflexivity|exact Hj].
Defined.

(** X22: a modal prop reaches only the rows of the selected video: after
    comments, share or other options are opened for a video, its rows get
    that prop and the rows of every other video get no modal prop at all;
    after the navigate-away signal no row gets any modal prop. *)
Theorem modal_props_reach_selected_video (s : LoopsFeed.State) (vid : Z) (v : Video)
    (i : nat) :
  (video_id v = vid ->
   VideoPlayer.commentsOpen (LoopsFeed.renderItem (LoopsFeed.step s (LoopsFeed.Comment vid)) v i) = true /\
   VideoPlayer.shareOpen (LoopsFeed.renderItem (LoopsFeed.step s (LoopsFeed.Share vid)) v i) = true /\
   VideoPlayer.otherOpen (LoopsFeed.renderItem (LoopsFeed.step s (LoopsFeed.Other vid)) v i) = true) /\
  (video_id v <> vid ->
   no_modal (LoopsFeed.renderItem (LoopsFeed.step s (LoopsFeed.Comment vid)) v i) /\
   no_modal (LoopsFeed.renderItem (LoopsFeed.step s (LoopsFeed.Share vid)) v i) /\
   no_modal (LoopsFeed.renderItem (LoopsFeed.step s (LoopsFeed.Other vid)) v i)) /\
  no_modal (LoopsFeed.renderItem (LoopsFeed.step s LoopsFeed.Navigate) v i).
Proof.
  unfold no_modal. cbn. unfold LoopsFeed.selected. cbn.
  split; [|split].
  - intros <-. rewrite Z.eqb_refl. repeat split; reflexivity.
  - intros H. assert (E : (vid =? video_id v) = false) by (apply Z.eqb_neq; congruence).
    rewrite E, !andb_false_r. repeat split; reflexivity.
  - repeat split; reflexivity.
Qed.

Lemma modal_props_reach_selected_video_witness :
  let clip := mkVideo 8 VideoPlayer.plain_clip 10 in
  video_id clip <> 9 /\
  no_modal (LoopsFeed.renderItem (LoopsFeed.step LoopsFeed.scrolled_feed (LoopsFeed.Comment 9)) clip 3)
  /\ VideoPlayer.commentsOpen
       (LoopsFeed.renderItem (LoopsFeed.step LoopsFeed.scrolled_feed (LoopsFeed.Comment 8)) clip 3)
     = true.
Proof.
  destruct (modal_props_reach_selected_video LoopsFeed.scrolled_feed 9
              (mkVideo 8 VideoPlayer.plain_clip 10) 3) as [_ [H _]].
  destruct (modal_props_reach_selected_video LoopsFeed.scrolled_feed 8
              (mkVideo 8 VideoPlayer.plain_clip 10) 3) as [G _].
  assert (N : video_id (mkVideo 8 VideoPlayer.plain_clip 10) <> 9) by discriminate.
  split; [exact N|]. split; [apply (proj1 (H N))|apply (proj1 (G eq_refl))].
Defined.

(** *** Rows and screen together *)

Section Rows.

Variable item : VideoPlayer.Item.
Variable media_duration : Q.
Variable SCREEN_WIDTH : Q.

(** X23: a tap on the rendered heart of a row makes the screen request a
    like when the row's flag was off and an unlike when it was on, for that
    item's id; a tap on the bookmark likewise; the screen's pointer and
    scroll position are not touched. *)
Theorem tap_requests_mutation (s : VideoPlayer.State) (feed : LoopsFeed.State) :
  VideoPlayer.gated item s = false ->
  VideoPlayer.showDurationControl s = false ->
  (exists c,
      VideoPlayer.calls (VideoPlayer.step item SCREEN_WIDTH s VideoPlayer.PressLike) =
        c :: VideoPlayer.calls s /\
      LoopsFeed.requests (LoopsFeed.step feed (LoopsFeed.RowCall c)) =
        videoLikeMutation (negb (VideoPlayer.isLiked s)) (VideoPlayer.id item)
        :: LoopsFeed.requests feed /\
      LoopsFeed.currentIndex (LoopsFeed.step feed (LoopsFeed.RowCall c)) =
        LoopsFeed.currentIndex feed) /\
  (exists c,
      VideoPlayer.calls (VideoPlayer.step item SCREEN_WIDTH s VideoPlayer.PressBookmark) =
        c :: VideoPlayer.calls s /\
      LoopsFeed.requests (LoopsFeed.step feed (LoopsFeed.RowCall c)) =
        videoBookmarkMutation (negb (VideoPlayer.isBookmarked s)) (VideoPlayer.id item)
        :: LoopsFeed.requests feed /\
      LoopsFeed.currentIndex (LoopsFeed.step feed (LoopsFeed.RowCall c)) =
        LoopsFeed.currentIndex feed).
Proof.
  intros Hg Hd.
  destruct (VideoPlayerFacts.step_like item SCREEN_WIDTH s Hg Hd) as [_ L].
  destruct (VideoPlayerFacts.step_bookmark item SCREEN_WIDTH s Hg Hd) as [_ B].
  split; eexists; (split; [eassumption|split; reflexivity]).
Qed.

Lemma deliver_no_invoke (feed : LoopsFeed.State) (cs : list VideoPlayer.Call) :
  existsb VideoPlayer.is_invoke cs = false ->
  LoopsFeed.timelineIsControlled (fold_right LoopsFeed.deliver feed cs) =
  LoopsFeed.timelineIsControlled feed.
Proof.
  induction cs as [|c cs IH]; intros H; [reflexivity|].
  cbn [existsb] in H. apply orb_false_elim in H. destruct H as [Hc H].
  cbn [fold_right]. destruct c as [i b|i b|f b]; cbn in *; try discriminate; apply IH, H.
Qed.

(** X24: in both feed screens a row never gets the scroll-lock function
    under the prop name it calls, so whatever happens to a row, the calls
    it makes leave the list's scroll lock as it was: scrubbing a timeline
    never disables list scrolling. *)
Theorem rows_never_lock_scrolling (feed : LoopsFeed.State) (profile : ProfileFeed.State)
    (v : Video) (i : nat) (tr : list VideoPlayer.Event) :
  let row := VideoPlayer.run item SCREEN_WIDTH
               (VideoPlayer.mount item media_duration (LoopsFeed.renderItem feed v i)) tr in
  let profile_row := VideoPlayer.run item SCREEN_WIDTH
               (VideoPlayer.mount item media_duration (ProfileFeed.renderItem profile v i)) tr in
  LoopsFeed.timelineIsControlled (fold_right LoopsFeed.deliver feed (VideoPlayer.calls row)) =
    LoopsFeed.timelineIsControlled feed /\
  LoopsFeed.scrollEnabled (fold_right LoopsFeed.deliver feed (VideoPlayer.calls row)) =
    LoopsFeed.scrollEnabled feed /\
  existsb VideoPlayer.is_invoke (VideoPlayer.calls profile_row) = false.
Proof.
  intros row profile_row.
  destruct (VideoPlayerFacts.run_no_invoke item media_duration SCREEN_WIDTH
              (LoopsFeed.renderItem feed v i) tr eq_refl) as [_ H].
  destruct (VideoPlayerFacts.run_no_invoke item media_duration SCREEN_WIDTH
              (ProfileFeed.renderItem profile v i) tr eq_refl) as [_ P].
  fold row in H. fold profile_row in P.
  pose proof (deliver_no_invoke feed _ H) as T.
  split; [exact T|]. split; [|exact P].
  unfold LoopsFeed.scrollEnabled. rewrite T. reflexivity.
Qed.

End Rows.

Lemma tap_requests_mutation_witness :
  let s := VideoPlayer.mount VideoPlayer.plain_clip 30 VideoPlayer.row_in_view in
  VideoPlayer.gated VideoPlayer.plain_clip s = false /\
  VideoPlayer.showDurationControl s = false /\
  exists c,
    VideoPlayer.calls (VideoPlayer.step VideoPlayer.plain_clip 400 s VideoPlayer.PressLike) =
      c :: VideoPlayer.calls s /\
    LoopsFeed.requests (LoopsFeed.step LoopsFeed.scrolled_feed (LoopsFeed.RowCall c)) =
      [videoLikeMutation false 8].
Proof.
  split; [vm_compute; reflexivity|]. split; [vm_compute; reflexivity|].
  destruct (tap_requests_mutation VideoPlayer.plain_clip 400
              (VideoPlayer.mount VideoPlayer.plain_clip 30 VideoPlayer.row_in_view)
              LoopsFeed.scrolled_feed) as [[c [C [R _]]] _];
    [vm_compute; reflexivity | vm_compute; reflexivity |].
  exists c. split; [exact C|]. rewrite R. vm_compute. reflexivity.
Defined.

End FeedMoreFacts.
